(** * The c-analyzer command core: check pipeline and report renderer

    A shallow embedding of [Tools/c-analyzer/c_analyzer/__main__.py]:
    the section table and its alias loop, the table renderer, the four
    report formats, the failure handlers and the two commands
    [cmd_check] and [cmd_analyze].

    Generators and commands are embedded in a small writer-with-exceptions
    monad: a run is the list of things emitted (lines yielded, or output
    events) together with the way the run ended. *)

From Stdlib Require Import Ascii String Sorted.
From stdpp Require Import base decidable option list strings pretty countable gmap.

Local Open Scope string_scope.

(* ===================================================================== *)
(** * Python values used by the module *)

(** [c_parser.info.KIND]: a closed enumeration. *)
Inductive KIND : Set :=
  TYPEDEF | STRUCT | UNION | ENUM | FUNCTION | VARIABLE | STATEMENT.

Global Instance KIND_eq_dec : EqDecision KIND.
Proof. solve_decision. Defined.

Definition KIND_index (k : KIND) : nat :=
  match k with
  | TYPEDEF => 0 | STRUCT => 1 | UNION => 2 | ENUM => 3
  | FUNCTION => 4 | VARIABLE => 5 | STATEMENT => 6
  end.

Definition KIND_of_index (n : nat) : KIND :=
  match n with
  | 0 => TYPEDEF | 1 => STRUCT | 2 => UNION | 3 => ENUM
  | 4 => FUNCTION | 5 => VARIABLE | _ => STATEMENT
  end.

Global Instance KIND_countable : Countable KIND.
Proof.
  refine (inj_countable' KIND_index KIND_of_index _).
  by intros [].
Defined.

(** Modelled from the spec: [KIND.value], the member's string value; the
    enumeration itself lives in [c_parser.info]. *)
Definition KIND_value (k : KIND) : string :=
  match k with
  | TYPEDEF => "typedef" | STRUCT => "struct" | UNION => "union"
  | ENUM => "enum" | FUNCTION => "function" | VARIABLE => "variable"
  | STATEMENT => "statement"
  end.

(** [str(KIND.X)] for a plain [enum.Enum] member. *)
Definition KIND_str (k : KIND) : string :=
  match k with
  | TYPEDEF => "KIND.TYPEDEF" | STRUCT => "KIND.STRUCT" | UNION => "KIND.UNION"
  | ENUM => "KIND.ENUM" | FUNCTION => "KIND.FUNCTION"
  | VARIABLE => "KIND.VARIABLE" | STATEMENT => "KIND.STATEMENT"
  end.

(** Modelled from the spec: [c_parser.info.is_type_decl], the membership
    predicate of the "types" section (typedef, struct, union, enum). *)
Definition is_type_decl (kind : KIND) : bool :=
  match kind with
  | TYPEDEF | STRUCT | UNION | ENUM => true
  | _ => false
  end.

Definition KINDS : list KIND :=
  [TYPEDEF; STRUCT; UNION; ENUM; FUNCTION; VARIABLE; STATEMENT].

(** Modelled from the spec: the analyzed entity, as far as this module
    reads it (the class [Analyzed] lives in [c_analyzer.info]).  Its
    [parent] attribute is absent, a plain label, or another entity. *)
Inductive Analyzed : Type :=
  MkAnalyzed (kind : KIND) (name : string) (filename : string)
             (parent : Parent) (is_known : bool)
with Parent : Type :=
| ParentNone
| ParentStr (s : string)
| ParentItem (p : Analyzed).

Definition kind (v : Analyzed) : KIND :=
  match v with MkAnalyzed k _ _ _ _ => k end.
Definition name (v : Analyzed) : string :=
  match v with MkAnalyzed _ n _ _ _ => n end.
Definition filename (v : Analyzed) : string :=
  match v with MkAnalyzed _ _ f _ _ => f end.
Definition parent (v : Analyzed) : Parent :=
  match v with MkAnalyzed _ _ _ p _ => p end.
Definition is_known (v : Analyzed) : bool :=
  match v with MkAnalyzed _ _ _ _ b => b end.

(** A key of [TABLE_SECTIONS], and the value of the variable [name] in
    [build_section]: a string or a [KIND] member.  The two never compare
    equal. *)
Inductive Key : Set :=
| KStr (s : string)
| KKind (k : KIND).

Global Instance Key_eq_dec : EqDecision Key.
Proof. solve_decision. Defined.

Global Instance Key_countable : Countable Key.
Proof.
  refine (inj_countable'
            (λ k, match k with KStr s => inl s | KKind k => inr k end)
            (λ x, match x with inl s => KStr s | inr k => KKind k end) _).
  by intros [].
Defined.

(** [f'{name}'] *)
Definition Key_str (k : Key) : string :=
  match k with
  | KStr s => s
  | KKind k => KIND_str k
  end.

(** Truth value of a string: empty is false. *)
Definition str_bool (s : string) : bool :=
  match s with
  | EmptyString => false
  | String _ _ => true
  end.

(** Truth value of an optional string argument ([None] or a [str]). *)
Definition opt_bool (o : option string) : bool :=
  match o with
  | None => false
  | Some s => str_bool s
  end.

(** The tab character and [s.split('\t')[0]]. *)
Definition TAB : ascii := "009"%char.

Fixpoint split_tab_0 (s : string) : string :=
  match s with
  | EmptyString => EmptyString
  | String c rest =>
      if Ascii.eqb c TAB then EmptyString else String c (split_tab_0 rest)
  end.

(** [a < b] on tuples of strings: the first differing position decides, a
    proper prefix is smaller. *)
Fixpoint tuple_lt (a b : list string) : bool :=
  match a, b with
  | [], [] => false
  | [], _ :: _ => true
  | _ :: _, [] => false
  | x :: a', y :: b' =>
      if String.eqb x y then tuple_lt a' b' else String.ltb x y
  end.

(** [sorted(l)], by a "less than" test.  Python's sort is stable and only
    asks [<]; with the head inserted in front of the first element that
    is not smaller than it, equal elements keep their input order. *)
Fixpoint insort {A} (lt : A → A → bool) (x : A) (l : list A) : list A :=
  match l with
  | [] => [x]
  | y :: l' => if lt y x then y :: insort lt x l' else x :: y :: l'
  end.

Definition sorted {A} (lt : A → A → bool) (l : list A) : list A :=
  foldr (insort lt) [] l.

(** [sorted(l, key=key)] for keys that are tuples of strings. *)
Definition sorted_key {A} (key : A → list string) (l : list A) : list A :=
  sorted (λ a b, tuple_lt (key a) (key b)) l.

(* ===================================================================== *)
(** * Runs: emitted items and the way a run ends *)

Inductive PyExc : Type :=
| KeyError (key : Key)
| ValueError (msg : string)
| NotImplementedError (msg : string)
| SystemExit (code : nat).

(** [KeyError] is the only subclass of [LookupError] raised here. *)
Definition is_LookupError (e : PyExc) : bool :=
  match e with
  | KeyError _ => true
  | _ => false
  end.

Inductive Outcome (A : Type) : Type :=
| Done (a : A)        (* normal completion with a value *)
| Exc (e : PyExc)     (* an exception propagates to the caller *)
| Unfinished.         (* the iteration bound of a [while] loop ran out *)
Arguments Done {A} a.
Arguments Exc {A} e.
Arguments Unfinished {A}.

Global Instance Outcome_ret : MRet Outcome := λ A a, Done a.
Global Instance Outcome_bind : MBind Outcome := λ A B f m,
  match m with
  | Done a => f a
  | Exc e => Exc e
  | Unfinished => Unfinished
  end.

Record Run (E A : Type) : Type := MkRun {
  trace : list E;
  outcome : Outcome A;
}.
Arguments MkRun {E A} trace outcome.
Arguments trace {E A} r.
Arguments outcome {E A} r.

Global Instance Run_ret {E} : MRet (Run E) := λ A a, MkRun [] (Done a).
Global Instance Run_bind {E} : MBind (Run E) := λ A B f m,
  match outcome m with
  | Done a => MkRun (trace m ++ trace (f a)) (outcome (f a))
  | Exc e => MkRun (trace m) (Exc e)
  | Unfinished => MkRun (trace m) Unfinished
  end.

(** [yield x] in a generator; one output event in a command. *)
Definition yield {E} (x : E) : Run E unit := MkRun [x] (Done tt).

(** [yield from xs] for a list that is already there. *)
Definition yield_from {E} (xs : list E) : Run E unit := MkRun xs (Done tt).

(** A plain call that may raise, used inside a run. *)
Definition call {E A} (o : Outcome A) : Run E A := MkRun [] o.

(** [raise e] *)
Definition raise {E A} (e : PyExc) : Run E A := MkRun [] (Exc e).

(** [d[k]] on a dictionary: the value, or [KeyError]. *)
Definition getitem {V} (d : gmap Key V) (k : Key) : Outcome V :=
  match d !! k with
  | Some v => Done v
  | None => Exc (KeyError k)
  end.

(** A generator of text lines. *)
Abbreviation Gen := (Run string unit).

(* ===================================================================== *)
(** * External collaborators *)

(** What the module calls but does not define: the entity's own
    renderings and derived keys, [repr], [os.path.relpath], and the
    helpers imported from [c_common.scriptutil].  A Python [str] is held
    as the bytes of its UTF-8 encoding, which compare as its code points
    do. *)
Class Collaborators : Type := {
  (** [item.render_rowdata(columns)[c]]: the row is a mapping with a cell
      for every requested column. *)
  render_rowdata : Analyzed → list string → string → string;
  (** [item.render(fmt)], the lines of one entity. *)
  render : Analyzed → string → list string;
  (** [str(item)] and [repr(item)] of an entity, [repr(s)] of a string. *)
  item_str : Analyzed → string;
  item_repr : Analyzed → string;
  str_repr : string → string;
  (** [item.shortkey] and [item.key]. *)
  shortkey : Analyzed → string;
  key : Analyzed → list string;
  (** [a < b] between entities, as [sorted(analysis)] asks it. *)
  item_lt : Analyzed → Analyzed → bool;
  (** [os.path.relpath(path, start)]: the exception it raises for these
      arguments, if any, and the path it returns otherwise.  An empty
      [path] is refused. *)
  relpath_error : string → string → option PyExc;
  relpath : string → string → string;
  relpath_empty start :
    relpath_error "" start = Some (ValueError "no path specified");
  (** [filter_filenames(filenames, iter_filenames)]. *)
  filter_filenames :
    list string → option (list string → list string) → list string;
  (** [analyzed.fix_filenames(relroot)], as a function of the collection. *)
  fix_filenames : string → list Analyzed → list Analyzed;
  (** [iter_marks()], by position. *)
  iter_marks : nat → string;
}.

Section WithCollaborators.
Context `{Collaborators}.

(* ===================================================================== *)
(** * Table helpers *)

(** A value of [TABLE_SECTIONS]: a (columns, match_kind, sortkey) tuple,
    or the name of another entry. *)
Inductive SectionInfo : Type :=
| Triple (columns : list string) (match_kind : KIND → bool)
         (sortkey : Analyzed → list string)
| Alias (target : string).

(** [str(v.parent) if v.parent else '']: a label is its own string, the
    string of a parent entity is the entity's business.  In the sort keys
    below [v.filename or ''] is [filename v], the file name being a
    string that is empty when the file is unknown. *)
Definition parent_str (v : Analyzed) : string :=
  match parent v with
  | ParentNone => ""
  | ParentStr s => s
  | ParentItem p => item_str p
  end.

Definition TABLE_SECTIONS : gmap Key SectionInfo :=
  list_to_map [
    (KStr "types",
      Triple ["kind"; "name"; "data"; "file"]
             is_type_decl
             (λ v, [KIND_value (kind v); filename v; name v]));
    (KStr "typedefs", Alias "types");
    (KStr "structs", Alias "types");
    (KStr "unions", Alias "types");
    (KStr "enums", Alias "types");
    (KStr "functions",
      Triple ["name"; "data"; "file"]
             (λ kind, bool_decide (kind = FUNCTION))
             (λ v, [filename v; name v]));
    (KStr "variables",
      Triple ["name"; "parent"; "data"; "file"]
             (λ kind, bool_decide (kind = VARIABLE))
             (λ v, [filename v; parent_str v; name v]));
    (KStr "statements",
      Triple ["file"; "parent"; "data"]
             (λ kind, bool_decide (kind = STATEMENT))
             (λ v, [filename v; parent_str v; name v]));
    (KKind TYPEDEF, Alias "typedefs");
    (KKind STRUCT, Alias "structs");
    (KKind UNION, Alias "unions");
    (KKind ENUM, Alias "enums");
    (KKind FUNCTION, Alias "functions");
    (KKind VARIABLE, Alias "variables");
    (KKind STATEMENT, Alias "statements")
  ].

(** [os.path.relpath(path, start)] as a call that may raise. *)
Definition os_path_relpath (path start : string) : Outcome string :=
  match relpath_error path start with
  | Some e => Exc e
  | None => Done (relpath path start)
  end.

(** [row[index] = os.path.relpath(row[index], relroot)] with
    [index = columns.index('file')]; the caller has checked that
    ['file' in columns]. *)
Definition relpath_file (columns row : list string) (relroot : string)
  : Outcome (list string) :=
  match list_find (λ c, c = "file") columns with
  | Some (index, _) =>
      match row !! index with
      | Some cell =>
          rel ← os_path_relpath cell relroot;
          mret (<[index := rel]> row)
      | None => mret row
      end
  | None => mret row
  end.

(** The loop of [_render_table]; [total] is the running count.  An
    exception of [os.path.relpath] ends the generator where it is
    raised, after the rows yielded so far. *)
Fixpoint _render_rows (items : list Analyzed) (columns : list string)
    (relroot : option string) (total : nat) : Run string nat :=
  match items with
  | [] => mret total
  | item :: items' =>
      let rowdata := render_rowdata item columns in
      let row := rowdata <$> columns in
      row ← (if opt_bool relroot && bool_decide ("file" ∈ columns)
             then call (relpath_file columns row (default "" relroot))
             else mret row);
      yield (String.concat (String TAB "") row);;
      _render_rows items' columns relroot (S total)
  end.

Definition _render_table (items : list Analyzed) (columns : list string)
    (relroot : option string) : Gen :=
  let header := String.concat (String TAB "") columns in
  let div := "--------------------" in
  yield header;;
  yield div;;
  total ← _render_rows items columns relroot 0;
  yield div;;
  yield ("total: " +:+ pretty total).

(** [name in KINDS]: some member of the list equals [name]. *)
Definition in_KINDS (name : Key) : bool :=
  existsb (λ k, bool_decide (KKind k = name)) KINDS.

(** The [while type(info) is not tuple] loop of [build_section], with a
    bound on the number of iterations. *)
Fixpoint resolve_section (bound : nat) (name : Key) (info : SectionInfo)
  : Outcome (Key * (list string * (KIND → bool) * (Analyzed → list string))) :=
  match info with
  | Triple columns match_kind sortkey =>
      Done (name, (columns, match_kind, sortkey))
  | Alias target =>
      match bound with
      | O => Unfinished
      | S bound' =>
          let name := if in_KINDS name then KStr target else name in
          info' ← getitem TABLE_SECTIONS (KStr target);
          resolve_section bound' name info'
      end
  end.

(** The render closure of [build_section]. *)
Definition section_render (name : Key) (items : list Analyzed)
    (columns : list string) (relroot : option string) : Gen :=
  yield "";;
  yield (Key_str name +:+ ":");;
  yield "";;
  _render_table items columns relroot.

(** The body of [build_section], its loop run for at most [bound]
    iterations. *)
Definition build_section_within (bound : nat) (name : Key)
    (groupitems : list Analyzed) (relroot : option string)
  : Outcome (list Analyzed * Gen) :=
  info ← getitem TABLE_SECTIONS name;
  '(name, (columns, match_kind, sortkey)) ← resolve_section bound name info;
  let items := filter (λ v, match_kind (kind v) = true) groupitems in
  let items := sorted_key sortkey items in
  mret (items, section_render name items columns relroot).

(** [build_section(name, groupitems, relroot=relroot)].  The source loop
    has no bound; the table's size is one that no chain of the table
    reaches (two iterations are enough for every key, see
    [build_section_resolution]). *)
Definition build_section (name : Key) (groupitems : list Analyzed)
    (relroot : option string) : Outcome (list Analyzed * Gen) :=
  build_section_within (size TABLE_SECTIONS) name groupitems relroot.

(* ===================================================================== *)
(** * The formats *)

(** [for x in xs: body(x)] *)
Fixpoint for_ {E A} (xs : list A) (body : A → Run E unit) : Run E unit :=
  match xs with
  | [] => mret tt
  | x :: xs' => body x;; for_ xs' body
  end.

Definition fmt_raw (analysis : list Analyzed) : Gen :=
  for_ analysis (λ item, yield_from (render item "raw")).

Definition fmt_brief (analysis : list Analyzed) : Gen :=
  let items := sorted item_lt analysis in
  for_ KINDS (λ kind_,
    if bool_decide (kind_ = STATEMENT) then mret tt
    else
      for_ items (λ item,
        if bool_decide (kind item ≠ kind_) then mret tt
        else yield_from (render item "brief")));;
  yield ("  total: " +:+ pretty (length items)).

(** The generator [section] nested in [fmt_summary]. *)
Definition section (items : list Analyzed) (name : string) : Gen :=
  '(_, render) ← call (build_section (KStr name) items None);
  render.

Definition fmt_summary (analysis : list Analyzed) : Gen :=
  let items := analysis in
  let total := length items in
  section items "types";;
  section items "functions";;
  section items "variables";;
  section items "statements";;
  yield "";;
  yield ("grand total: " +:+ pretty total).

Definition fmt_full (analysis : list Analyzed) : Gen :=
  let items := sorted_key key analysis in
  yield "";;
  for_ items (λ item, yield_from (render item "full");; yield "");;
  yield ("total: " +:+ pretty (length items)).

Definition FORMATS : gmap string (list Analyzed → Gen) :=
  list_to_map [
    ("raw", fmt_raw);
    ("brief", fmt_brief);
    ("summary", fmt_summary);
    ("full", fmt_full)
  ].

(* ===================================================================== *)
(** * The checks *)

(** What a command does to the outside, in order. *)
Inductive Event : Type :=
| LogInfo (msg : string)                  (* logger.info(msg) *)
| LogWarn (msg : string)                  (* logger.warn(msg) *)
| PrinterInfo (msg : string)              (* printer.info(msg) *)
| PrintLine (text : string)               (* print(text) *)
| PrintNoEnd (text : string)              (* print(text, end='') *)
| CallAnalyze (filenames : list string).  (* _analyze(filenames, **kwargs) *)

(** A byte of the form 10xxxxxx: in UTF-8, a byte that continues a code
    point begun by an earlier byte. *)
Definition is_continuation (a : ascii) : bool :=
  let n := nat_of_ascii a in (128 <=? n)%nat && (n <? 192)%nat.

(** [len(s)], the number of code points of [s]: every byte of its UTF-8
    encoding that does not continue a code point begins one. *)
Fixpoint len (s : string) : nat :=
  match s with
  | EmptyString => 0
  | String a s' => (if is_continuation a then 0 else 1) + len s'
  end.

(** [n] spaces. *)
Definition spaces (n : nat) : string :=
  string_of_list_ascii (replicate n " "%char).

(** [f'{s:width}'] for a string: padded with spaces on the right to
    [width] code points, never cut. *)
Definition ljust (width : nat) (s : string) : string :=
  s +:+ spaces (width - len s).

(** [f'{fmt!r}'] for an argument that is [None] or a string. *)
Definition opt_repr (o : option string) : string :=
  match o with
  | None => "None"
  | Some s => str_repr s
  end.

(** [parent = data.parent or '']; then
    [parent if isinstance(parent, str) else parent.name]. *)
Definition funcname_of (data : Analyzed) : string :=
  match parent data with
  | ParentNone => ""
  | ParentStr s => s
  | ParentItem p => name p
  end.

(** [funcname or "-"] *)
Definition or_dash (funcname : string) : string :=
  if str_bool funcname then funcname else "-".

Definition handle_failure_plain (verbosity : nat) (failure : string)
    (data : Analyzed) : Run Event unit :=
  let data := item_repr data in
  if bool_decide (3 ≤ verbosity)%nat then
    yield (LogInfo ("failure: " +:+ failure));;
    yield (LogInfo ("data:    " +:+ data))
  else
    yield (LogWarn ("failure: " +:+ failure +:+ " (data: " +:+ data +:+ ")")).

Definition handle_failure_raw (failure : string) (data : Analyzed)
  : Run Event unit :=
  yield (PrintLine (str_repr failure +:+ " " +:+ item_repr data)).

Definition handle_failure_brief (failure : string) (data : Analyzed)
  : Run Event unit :=
  let funcname := funcname_of data in
  let name_ :=
    if str_bool funcname then "(" +:+ funcname +:+ ")." +:+ name data
    else name data in
  let failure := split_tab_0 failure in
  yield (PrintLine (filename data +:+ ":" +:+ name_ +:+ " - " +:+ failure)).

Definition handle_failure_summary (failure : string) (data : Analyzed)
  : Run Event unit :=
  let funcname := funcname_of data in
  yield (PrintLine (ljust 35 (filename data) +:+ String TAB ""
                +:+ ljust 35 (or_dash funcname) +:+ String TAB ""
                +:+ ljust 40 (name data) +:+ String TAB ""
                +:+ failure)).

Definition handle_failure_full (failure : string) (data : Analyzed)
  : Run Event unit :=
  let name_ :=
    if bool_decide (kind data = VARIABLE) then shortkey data else name data in
  let funcname := funcname_of data in
  let known := if is_known data then "yes" else "*** NO ***" in
  yield (PrintLine (KIND_value (kind data) +:+ " " +:+ str_repr name_
                +:+ " failed (" +:+ failure +:+ ")"));;
  yield (PrintLine ("  file:         " +:+ filename data));;
  yield (PrintLine ("  func:         " +:+ or_dash funcname));;
  yield (PrintLine ("  name:         " +:+ name data));;
  yield (PrintLine "  data:         ...");;
  yield (PrintLine ("  type unknown: " +:+ known)).

(** The handlers chosen for a format: [handle_failure], [handle_after]
    and [div]. *)
Record Handlers : Type := MkHandlers {
  handle_failure : string → Analyzed → Run Event unit;
  handle_after : Run Event unit;
  div : option string;
}.

(** [_get_check_handlers(fmt, printer, verbosity)]; the [printer]
    argument is not used by the body. *)
Definition _get_check_handlers (fmt : option string) (verbosity : nat)
  : Outcome Handlers :=
  let handle_after : Run Event unit := mret tt in
  if negb (opt_bool fmt) then
    Done (MkHandlers (handle_failure_plain verbosity) handle_after (Some ""))
  else if bool_decide (fmt = Some "raw") then
    Done (MkHandlers handle_failure_raw handle_after None)
  else if bool_decide (fmt = Some "brief") then
    Done (MkHandlers handle_failure_brief handle_after None)
  else if bool_decide (fmt = Some "summary") then
    Done (MkHandlers handle_failure_summary handle_after None)
  else if bool_decide (fmt = Some "full") then
    Done (MkHandlers handle_failure_full handle_after (Some ""))
  else
    if bool_decide (is_Some (fmt ≫= (FORMATS !!.))) then
      Exc (NotImplementedError (default "" fmt))
    else Exc (ValueError ("unsupported fmt " +:+ opt_repr fmt)).

(* ===================================================================== *)
(** * The commands *)

(** A check: given the analyzed set, its (entity, failure) results. *)
Definition Check : Type := list Analyzed → list (Analyzed * string).

(** An element of the [checks] argument: a name or a callable. *)
Inductive CheckRef : Type :=
| CheckName (c : string)
| CheckFn (check : Check).

(** The [checks] argument: [None], one name, or a list. *)
Inductive ChecksArg : Type :=
| ChecksNone
| ChecksStr (c : string)
| ChecksList (l : list CheckRef).

(** The registry [_CHECKS]: a dictionary in insertion order, its names
    distinct. *)
Definition Registry : Type := list (string * Check).

(** [_CHECKS[c]] *)
Fixpoint registry_get (_CHECKS : Registry) (c : string) : Outcome Check :=
  match _CHECKS with
  | [] => Exc (KeyError (KStr c))
  | (c', check) :: rest =>
      if bool_decide (c' = c) then Done check else registry_get rest c
  end.

(** [not checks] *)
Definition checks_empty (checks : ChecksArg) : bool :=
  match checks with
  | ChecksNone => true
  | ChecksStr c => negb (str_bool c)
  | ChecksList l => bool_decide (l = [])
  end.

(** [[_CHECKS[c] if isinstance(c, str) else c for c in checks]] *)
Fixpoint lookup_checks (_CHECKS : Registry) (checks : list CheckRef)
  : Outcome (list Check) :=
  match checks with
  | [] => Done []
  | c :: checks' =>
      check ← match c with
              | CheckName c => registry_get _CHECKS c
              | CheckFn check => Done check
              end;
      rest ← lookup_checks _CHECKS checks';
      mret (check :: rest)
  end.

(** Lines 296-301 of [cmd_check]: the list of callables to run. *)
Definition resolve_checks (checks : ChecksArg) (_CHECKS : Registry)
  : Outcome (list Check) :=
  let checks :=
    if checks_empty checks then CheckName <$> (fst <$> _CHECKS)
    else match checks with
         | ChecksStr c => [CheckName c]
         | ChecksList l => l
         | ChecksNone => []
         end in
  lookup_checks _CHECKS checks.

(** The pair that ends a fail-fast run: its data component is [None];
    its other component is never read by the consumer. *)
Definition sentinel : option Analyzed * string := (None, "").

(** Modelled from the spec: the check runner [check_all] of
    [c_analyzer/__init__.py].  Checks run in list order and their failures
    are concatenated; with [failfast] one sentinel pair follows the first
    failure and nothing is produced after it. *)
Definition check_all (analysis : list Analyzed) (checks : list Check)
    (failfast : bool) : list (option Analyzed * string) :=
  let failures := checks ≫= (λ check, check analysis) in
  if failfast then
    match failures with
    | [] => []
    | (data, failure) :: _ => [(Some data, failure); sentinel]
    end
  else (λ '(data, failure), (Some data, failure)) <$> failures.

(** The [for data, failure in _check_all(...)] loop of [cmd_check];
    [numfailed] is the running count, returned when the loop is left. *)
Fixpoint check_loop (results : list (option Analyzed * string))
    (handlers : Handlers) (numfailed : nat) : Run Event nat :=
  match results with
  | [] => mret numfailed
  | (data, failure) :: results' =>
      match data with
      | None =>
          yield (PrinterInfo "stopping after one failure");;
          mret numfailed
      | Some data =>
          match div handlers with
          | Some div_ =>
              if bool_decide (0 < numfailed)%nat
              then yield (PrinterInfo div_) else mret tt
          | None => mret tt
          end;;
          let numfailed := S numfailed in
          handle_failure handlers failure data;;
          check_loop results' handlers numfailed
      end
  end.

(** [cmd_check]; the arguments [ignored] and [**kwargs] play no part in
    what the command does itself and are left out. *)
Definition cmd_check (filenames : list string) (checks : ChecksArg)
    (fmt relroot : option string) (failfast : bool)
    (iter_filenames : option (list string → list string)) (verbosity : nat)
    (_analyze : list string → list Analyzed) (_CHECKS : Registry)
  : Run Event unit :=
  checks ← call (resolve_checks checks _CHECKS);
  handlers ← call (_get_check_handlers fmt verbosity);
  let filenames := filter_filenames filenames iter_filenames in
  yield (LogInfo "analyzing...");;
  yield (CallAnalyze filenames);;
  let analyzed := _analyze filenames in
  let analyzed :=
    if opt_bool relroot then fix_filenames (default "" relroot) analyzed
    else analyzed in
  yield (LogInfo "checking...");;
  numfailed ← check_loop (check_all analyzed checks failfast) handlers 0;
  handle_after handlers;;
  yield (PrinterInfo "-------------------------");;
  yield (LogInfo ("total failures: " +:+ pretty numfailed));;
  yield (LogInfo "done checking");;
  if bool_decide (0 < numfailed)%nat then raise (SystemExit numfailed)
  else mret tt.

(** [for line in do_fmt(analyzed): print(line)]: every line the generator
    yields is printed; the run ends the way the generator ends. *)
Definition print_lines (lines : Gen) : Run Event unit :=
  MkRun (PrintLine <$> trace lines) (outcome lines).

(** The analyzer as [cmd_analyze] calls it.  It is handed an iterable of
    file names, pulls names from it while it runs, and returns a
    collection: [pulls filenames] is the number of names it asks for when
    the iterable holds [filenames] (at least their number when it reads to
    the end), [returns filenames] the collection it returns. *)
Record Analyzer : Type := MkAnalyzer {
  pulls : list string → nat;
  returns : list string → list Analyzed;
}.

(** The filename wrappers of [cmd_analyze], generators around the file
    names: what they print for the names pulled from them, [pulled] in
    order; a name is echoed when it is pulled, just before it is
    handed over. *)
Definition filename_echo (verbosity : nat) (pulled : list string)
  : list Event :=
  if bool_decide (verbosity = 2) then
    imap (λ i _, PrintNoEnd (iter_marks i)) pulled
  else if bool_decide (2 < verbosity)%nat then
    (λ filename, PrintLine ("<" +:+ filename +:+ ">")) <$> pulled
  else [].

(** [cmd_analyze], without [**kwargs].  The call of the analyzer is one
    event; the echoes of the names it pulls during the call follow it. *)
Definition cmd_analyze (filenames : list string) (fmt : option string)
    (iter_filenames : option (list string → list string))
    (verbosity : option nat)
    (_analyze : Analyzer)
    (formats : gmap string (list Analyzed → Gen))
  : Run Event unit :=
  let verbosity := default 3 verbosity in
  do_fmt ← match fmt ≫= (formats !!.) with
           | Some do_fmt => mret do_fmt
           | None => raise (ValueError ("unsupported fmt " +:+ opt_repr fmt))
           end;
  let filenames := filter_filenames filenames iter_filenames in
  yield (LogInfo "analyzing...");;
  yield (CallAnalyze filenames);;
  let pulled := take (pulls _analyze filenames) filenames in
  yield_from (filename_echo verbosity pulled);;
  let analyzed := returns _analyze filenames in
  print_lines (do_fmt analyzed).

End WithCollaborators.

(* ===================================================================== *)
(** * A concrete set of collaborators, and sample data *)

Module Sample.

(** [path] relative to [start] when [start/] is a prefix of it. *)
Fixpoint strip_prefix (start path : string) : option string :=
  match start, path with
  | EmptyString, String "/" rest => Some rest
  | String a start', String b path' =>
      if Ascii.eqb a b then strip_prefix start' path' else None
  | _, _ => None
  end.

Definition sample_key (v : Analyzed) : list string :=
  [KIND_value (kind v); name v].

Definition sample_rowdata (item : Analyzed) (columns : list string)
    (c : string) : string :=
  if bool_decide (c = "kind") then KIND_value (kind item)
  else if bool_decide (c = "name") then name item
  else if bool_decide (c = "file") then filename item
  else if bool_decide (c = "parent") then
    match parent item with
    | ParentNone => "-"
    | ParentStr s => s
    | ParentItem p => name p
    end
  else "-".

#[global] Instance collaborators : Collaborators := {|
  render_rowdata := sample_rowdata;
  render := λ item fmt, [fmt +:+ " " +:+ name item];
  item_str := name;
  item_repr := λ item, "<" +:+ name item +:+ ">";
  str_repr := λ s, "'" +:+ s +:+ "'";
  shortkey := name;
  key := sample_key;
  item_lt := λ a b, tuple_lt (sample_key a) (sample_key b);
  relpath_error := λ path _,
    if str_bool path then None else Some (ValueError "no path specified");
  relpath := λ path start, default path (strip_prefix start path);
  relpath_empty := λ _, eq_refl;
  filter_filenames := λ filenames _, filenames;
  fix_filenames := λ _ analyzed, analyzed;
  iter_marks := λ _, ".";
|}.

Definition Point : Analyzed :=
  MkAnalyzed TYPEDEF "Point" "/src/geom.h" ParentNone true.
Definition add : Analyzed :=
  MkAnalyzed FUNCTION "add" "/src/geom.c" ParentNone true.
Definition count : Analyzed :=
  MkAnalyzed VARIABLE "count" "/src/geom.c" (ParentItem add) true.
Definition buf : Analyzed :=
  MkAnalyzed VARIABLE "buf" "geom.c" (ParentStr "add") false.
Definition stmt : Analyzed :=
  MkAnalyzed STATEMENT "" "/src/geom.c" (ParentItem add) true.

(** A function whose name is not ASCII: "café", its last letter (U+00E9)
    two bytes in UTF-8. *)
Definition cafe : Analyzed :=
  MkAnalyzed FUNCTION ("caf" +:+ String "195" (String "169" "")) "geom.c"
             ParentNone true.

(** A variable whose file is not known. *)
Definition nofile : Analyzed :=
  MkAnalyzed VARIABLE "errno" "" ParentNone true.

Definition analysis : list Analyzed := [count; stmt; add; Point].

(** A check that fails every variable whose type is not known, and one
    that fails every statement. *)
Definition check_unknown : Check := λ analyzed,
  (λ v, (v, "unsupported type" +:+ String TAB "details..."))
    <$> filter (λ v, kind v = VARIABLE ∧ is_known v = false) analyzed.
Definition check_statements : Check := λ analyzed,
  (λ v, (v, "statement at top level"))
    <$> filter (λ v, kind v = STATEMENT) analyzed.

Definition CHECKS : Registry :=
  [("unknown", check_unknown); ("statements", check_statements)].

Definition analyze : list string → list Analyzed :=
  λ _, [buf; stmt; add; stmt].

(** An analyzer that reads every file name, and one that stops after the
    first. *)
Definition analyzer : Analyzer := MkAnalyzer length analyze.
Definition hasty : Analyzer := MkAnalyzer (λ _, 1) (λ _, [Point; add]).

End Sample.

(* ===================================================================== *)
(** * Notions used to state the properties *)

(** Neighbours are in order when the later one is not smaller. *)
Definition in_order {A} (lt : A → A → bool) (l : list A) : Prop :=
  Sorted (λ a b, lt b a = false) l.

(** The canonical section a key of the table stands for: "types" covers
    typedef, struct, union and enum. *)
Definition canonical (k : Key) : option string :=
  match k with
  | KStr s =>
      if bool_decide (s ∈ ["types"; "typedefs"; "structs"; "unions"; "enums"])
      then Some "types"
      else if bool_decide (s ∈ ["functions"; "variables"; "statements"])
      then Some s
      else None
  | KKind k =>
      Some match k with
           | TYPEDEF | STRUCT | UNION | ENUM => "types"
           | FUNCTION => "functions"
           | VARIABLE => "variables"
           | STATEMENT => "statements"
           end
  end.

(** The name a section is shown under: a string name as given, a kind by
    the plural the table gives it. *)
Definition shown_name (k : Key) : string :=
  match k with
  | KStr s => s
  | KKind k =>
      match k with
      | TYPEDEF => "typedefs" | STRUCT => "structs" | UNION => "unions"
      | ENUM => "enums" | FUNCTION => "functions"
      | VARIABLE => "variables" | STATEMENT => "statements"
      end
  end.

Section Notions.
Context `{Collaborators}.

(** [type(info) is tuple] *)
Definition is_tuple (info : SectionInfo) : bool :=
  match info with
  | Triple _ _ _ => true
  | Alias _ => false
  end.

(** The entries of the table that are tuples: the canonical sections. *)
Definition canonical_entries : gmap Key SectionInfo :=
  filter (λ kv, is_tuple kv.2 = true) TABLE_SECTIONS.

(** The columns of a canonical section. *)
Definition columns_of (c : string) : list string :=
  match TABLE_SECTIONS !! KStr c with
  | Some (Triple columns _ _) => columns
  | _ => []
  end.

(** The exception [os.path.relpath] raises for the "file" cell of an
    item, when the cell is to be rewritten (a non-empty root, "file"
    among the columns) and the path is refused. *)
Definition refused (columns : list string) (relroot : option string)
    (item : Analyzed) : option PyExc :=
  if opt_bool relroot && bool_decide ("file" ∈ columns)
  then relpath_error (render_rowdata item columns "file") (default "" relroot)
  else None.

(** A table row for any list of columns: every cell is the entity's own
    rendering of the column, but the cell of the first column called
    "file" is relative to the root when a non-empty root is given. *)
Definition first_file_row (columns : list string) (relroot : option string)
    (item : Analyzed) : string :=
  String.concat (String TAB "")
    (imap (λ j column,
             let cell := render_rowdata item columns column in
             if bool_decide (opt_bool relroot = true ∧ column = "file"
                             ∧ "file" ∉ take j columns)
             then relpath cell (default "" relroot) else cell) columns).

(** A cell of a table row: the entity's own rendering of the column;
    the "file" cell relative to the root when a non-empty root is
    given. *)
Definition table_cell (columns : list string) (relroot : option string)
    (item : Analyzed) (c : string) : string :=
  let cell := render_rowdata item columns c in
  match relroot with
  | Some root =>
      if bool_decide (root ≠ "" ∧ c = "file") then relpath cell root
      else cell
  | None => cell
  end.

Definition table_row (columns : list string) (relroot : option string)
    (item : Analyzed) : string :=
  String.concat (String TAB "") (table_cell columns relroot item <$> columns).

(** The entities [fmt_brief] renders, in the order it renders them: kind
    by kind, through the sorted items. *)
Definition brief_items (analysis : list Analyzed) : list Analyzed :=
  [TYPEDEF; STRUCT; UNION; ENUM; FUNCTION; VARIABLE]
    ≫= λ k, filter (λ item, kind item = k) (sorted item_lt analysis).

(** The lines that open a rendered section, and all its lines. *)
Definition section_head (shown : string) (columns : list string)
  : list string :=
  [""; shown +:+ ":"; "";
   String.concat (String TAB "") columns; "--------------------"].

Definition section_lines (shown : string) (columns : list string)
    (relroot : option string) (items : list Analyzed) : list string :=
  section_head shown columns
  ++ (table_row columns relroot <$> items)
  ++ ["--------------------"; "total: " +:+ pretty (length items)].
End Notions.

(* ===================================================================== *)
(** * The data command and the script's entry point *)

(** What [cmd_data] calls in [c_analyzer.datafiles]. *)
Class DataFiles : Type := {
  (** [_datafiles.get_known(known, extracolumns, relroot)[0]]: the known
      entities read from the file named [known]. *)
  get_known : string → option (list string) → option string → list Analyzed;
  (** What [_datafiles.write_known(analyzed, outfile, extracolumns,
      relroot=relroot)] writes to [outfile]. *)
  known_text : list Analyzed → option (list string) → option string → string;
}.

(** The [known] argument of [cmd_data]: [None], a file name, or a
    collection of entities. *)
Inductive Known : Type :=
| KnownNone
| KnownPath (filename : string)
| KnownItems (items : list Analyzed).

(** [known is None] *)
Definition known_is_None (known : Known) : bool :=
  match known with
  | KnownNone => true
  | _ => false
  end.

(** What [cmd_data] does to the outside: what the other commands do, and
    the reading and writing of a known-types file. *)
Inductive DataEvent : Type :=
| Core (e : Event)
| ReadKnown (filename : string)
| WriteKnown (outfile : Known) (text : string).

(** The run of a command, with its events seen as events of [cmd_data]. *)
Definition lift_core {A} (r : Run Event A) : Run DataEvent A :=
  MkRun (Core <$> trace r) (outcome r).

(** How a call ends when the callee may not be callable, or its argument
    not iterable: the run of the callee, an exception raised before it
    starts, or a [TypeError], which is raised before anything is done. *)
Inductive Invoked (R : Type) : Type :=
| Ran (run : R)
| Raised (e : PyExc)
| TypeError (msg : string).
Arguments Ran {R} run.
Arguments Raised {R} e.
Arguments TypeError {R} msg.

Section Data.
Context `{Collaborators} `{DataFiles}.

(** [cmd_data(datacmd, filenames, known, ...)]; [show] is the entry of
    that name popped from [**kwargs], [datacmd] is [None] when the command
    line names no sub-command.  Every formatter of the module starts by
    iterating its argument, which [None] does not allow. *)
Definition cmd_data (datacmd : option string) (filenames : list string)
    (known : Known) (_analyze : list string → list Analyzed)
    (formats : gmap string (list Analyzed → Gen))
    (extracolumns : option (list string)) (relroot : option string)
    (show : option bool) : Invoked (Run DataEvent unit) :=
  let usestdout := show in
  if bool_decide (datacmd = Some "show") then
    match formats !! "summary" with
    | None => Ran (raise (KeyError (KStr "summary")))
    | Some do_fmt =>
        match known with
        | KnownPath filename =>
            Ran (yield (ReadKnown filename);;
                 let known := get_known filename extracolumns relroot in
                 lift_core (print_lines (do_fmt known)))
        | KnownItems known => Ran (lift_core (print_lines (do_fmt known)))
        | KnownNone => TypeError "'NoneType' object is not iterable"
        end
    end
  else if bool_decide (datacmd = Some "dump") then
    Ran (yield (Core (CallAnalyze filenames));;
         let analyzed := _analyze filenames in
         if known_is_None known || default false usestdout then
           yield (Core (PrintLine (known_text analyzed extracolumns relroot)))
         else
           yield (WriteKnown known (known_text analyzed extracolumns relroot)))
  else if bool_decide (datacmd = Some "check") then
    Ran (raise (NotImplementedError "check"))
  else
    Ran (raise (ValueError ("unsupported data command " +:+ opt_repr datacmd))).
End Data.

Section Script.
Context `{Collaborators} {K R : Type}.

(** The three commands [cmd_check], [cmd_analyze] and [cmd_data], each
    applied to the keyword arguments the command line gives. *)
Context (run_check run_analyze run_data : K → R).

(** A member of a [COMMANDS] tuple: the description, the list of CLI
    helpers (by name), or the command function. *)
Inductive Member : Type :=
| MStr (s : string)
| MList (helpers : list string)
| MFunc (f : K → R).

Definition COMMANDS : gmap string (Member * Member * Member) :=
  list_to_map [
    ("check",
      (MStr "analyze and fail if the given C source/header files have any problems",
       MList ["_cli_check"],
       MFunc run_check));
    ("analyze",
      (MStr "report on the state of the given C source/header files",
       MList ["_cli_analyze"],
       MFunc run_analyze));
    ("data",
      (MStr "check/manage local data (e.g. knwon types, ignored vars, caches)",
       MList ["_cli_data"],
       MFunc run_data))
  ].

(** Calling [m] with the keyword arguments [cmd_kwargs]. *)
Definition call_member (m : Member) (cmd_kwargs : K) : Invoked R :=
  match m with
  | MFunc f => Ran (f cmd_kwargs)
  | MStr _ => TypeError "'str' object is not callable"
  | MList _ => TypeError "'list' object is not callable"
  end.

(** [main(cmd, cmd_kwargs)]: [run_cmd] is [COMMANDS[cmd][0]]. *)
Definition main (cmd : string) (cmd_kwargs : K) : Invoked R :=
  match COMMANDS !! cmd with
  | Some entry =>
      let run_cmd := entry.1.1 in
      call_member run_cmd cmd_kwargs
  | None => Raised (ValueError ("unsupported cmd " +:+ str_repr cmd))
  end.
End Script.

Module SampleData.
#[global] Instance datafiles : DataFiles := {|
  get_known := λ filename _ _,
    if bool_decide (filename = "known.tsv") then [Sample.Point; Sample.add]
    else [];
  known_text := λ analyzed _ _,
    String.concat ";" (name <$> analyzed);
|}.
End SampleData.

(** Blocks of events put one after the other, with a separator between
    two blocks. *)
Definition join_blocks {E} (sep : list E) (blocks : list (list E)) : list E :=
  match blocks with
  | [] => []
  | block :: blocks' => (block ++ (blocks' ≫= λ block', sep ++ block'))%list
  end.

(** What is printed between two failures: [printer.info(div)] when a
    divider is set, nothing otherwise. *)
Definition divider (handlers : Handlers) : list Event :=
  match div handlers with
  | Some div_ => [PrinterInfo div_]
  | None => []
  end.

(** [CHECKS], the registry of the module: its one entry is commented
    out, so the dictionary is empty. *)
Definition CHECKS : Registry := [].

(* ===================================================================== *)
(** * Sorting *)

Section Sorting.
Context {A : Type} (lt : A → A → bool).

Lemma insort_Permutation x l : insort lt x l ≡ₚ x :: l.
Proof.
  induction l as [|y l IH]; simpl; [done|].
  destruct (lt y x); [|done].
  rewrite IH. apply Permutation_swap.
Qed.

Lemma sorted_Permutation l : sorted lt l ≡ₚ l.
Proof.
  induction l as [|x l IH]; simpl; [done|].
  by rewrite insort_Permutation, IH.
Qed.

Lemma sorted_length l : length (sorted lt l) = length l.
Proof. by rewrite sorted_Permutation. Qed.

Lemma insort_head x y l :
  lt y x = false → insort lt x (y :: l) = x :: y :: l.
Proof. simpl. by intros ->. Qed.

(** Sorting leaves a list that is in order as it is. *)
Lemma sorted_in_order l : in_order lt l → sorted lt l = l.
Proof.
  induction 1 as [|x l Hl IH Hhd]; simpl; [done|].
  rewrite IH. destruct Hhd as [|y l' Hxy]; simpl; [done|].
  by rewrite Hxy.
Qed.

Hypothesis lt_asym : ∀ a b, lt a b = true → lt b a = false.

Lemma insort_in_order x l : in_order lt l → in_order lt (insort lt x l).
Proof.
  induction 1 as [|y l Hl IH Hhd]; simpl.
  - repeat constructor.
  - destruct (lt y x) eqn:Hyx.
    + constructor; [done|].
      destruct Hhd as [|z l' Hyz]; simpl.
      * constructor. by apply lt_asym.
      * destruct (lt z x); constructor; [done|]. by apply lt_asym.
    + repeat constructor; done.
Qed.

Lemma sorted_is_in_order l : in_order lt (sorted lt l).
Proof.
  induction l as [|x l IH]; simpl; [constructor|].
  by apply insort_in_order.
Qed.

Lemma sorted_idempotent l : sorted lt (sorted lt l) = sorted lt l.
Proof. apply sorted_in_order, sorted_is_in_order. Qed.
End Sorting.

Lemma String_ltb_asym (x y : string) :
  String.ltb x y = true → String.ltb y x = false.
Proof.
  unfold String.ltb. rewrite (String.compare_antisym x y).
  by destruct (String.compare y x).
Qed.

Lemma tuple_lt_asym (a b : list string) :
  tuple_lt a b = true → tuple_lt b a = false.
Proof.
  revert b. induction a as [|x a IH]; intros [|y b]; simpl; try done.
  rewrite (String.eqb_sym y x).
  destruct (String.eqb x y); [apply IH | apply String_ltb_asym].
Qed.

Lemma sorted_key_idempotent {A} (key : A → list string) (l : list A) :
  sorted_key key (sorted_key key l) = sorted_key key l.
Proof. apply sorted_idempotent. intros a b. apply tuple_lt_asym. Qed.

Lemma sorted_key_Permutation {A} (key : A → list string) (l : list A) :
  sorted_key key l ≡ₚ l.
Proof. apply sorted_Permutation. Qed.

Lemma filter_all {A} (P : A → Prop) `{∀ x, Decision (P x)} (l : list A) :
  Forall P l → filter P l = l.
Proof.
  induction 1 as [|x l Hx Hl IH]; [done|].
  by rewrite filter_cons_True, IH.
Qed.

Lemma Forall_filter_self {A} (P : A → Prop) `{∀ x, Decision (P x)}
    (l : list A) : Forall P (filter P l).
Proof. apply Forall_forall. by intros x [? _]%list_elem_of_filter. Qed.

(** Filtering what was filtered and sorted, then sorting it again, changes
    nothing. *)
Lemma filter_sorted_idempotent {A} (P : A → Prop) `{∀ x, Decision (P x)}
    (key : A → list string) (l : list A) :
  sorted_key key (filter P (sorted_key key (filter P l)))
  = sorted_key key (filter P l).
Proof.
  rewrite (filter_all P (sorted_key key (filter P l))).
  - apply sorted_key_idempotent.
  - rewrite sorted_key_Permutation. apply Forall_filter_self.
Qed.

(* ===================================================================== *)
(** * Runs *)

Section Runs.
Context {E : Type}.

Lemma bind_Done {A B} (t : list E) (a : A) (f : A → Run E B) :
  MkRun t (Done a) ≫= f = MkRun (t ++ trace (f a)) (outcome (f a)).
Proof. done. Qed.

Lemma bind_Exc {A B} (t : list E) (e : PyExc) (f : A → Run E B) :
  MkRun t (Exc e) ≫= f = MkRun t (Exc e).
Proof. done. Qed.

Lemma bind_yield {B} (x : E) (f : unit → Run E B) :
  yield x ≫= f = MkRun (x :: trace (f tt)) (outcome (f tt)).
Proof. done. Qed.

Lemma Run_eta {A} (r : Run E A) : MkRun (trace r) (outcome r) = r.
Proof. by destruct r. Qed.

Lemma bind_ret {A B} (a : A) (f : A → Run E B) : mret a ≫= f = f a.
Proof. by destruct (f a) eqn:Hf; unfold mbind, Run_bind; simpl; rewrite Hf. Qed.

(** A loop whose body always completes emits the bodies' items in
    order. *)
Lemma for_Done {A} (xs : list A) (body : A → Run E unit)
    (out : A → list E) :
  (∀ x, body x = MkRun (out x) (Done tt)) →
  for_ xs body = MkRun (xs ≫= out) (Done tt).
Proof.
  intros Hbody. induction xs as [|x xs IH]; [done|].
  simpl. by rewrite Hbody, bind_Done, IH.
Qed.
End Runs.

(* ===================================================================== *)
(** * The section table *)

Section Table.
Context `{Collaborators}.

(** The source rewrites the first "file" cell, and no other, whatever
    the columns are; when [os.path.relpath] refuses the cell there is no
    row. *)
Lemma relpath_file_first (columns : list string) (f : string → string)
    (root : string) :
  "file" ∈ columns →
  relpath_file columns (f <$> columns) root
  = match relpath_error (f "file") root with
    | Some e => Exc e
    | None =>
        Done (imap (λ j c, if bool_decide (c = "file"
                                           ∧ "file" ∉ take j columns)
                           then relpath (f c) root else f c) columns)
    end.
Proof.
  intros Hin. unfold relpath_file.
  destruct (list_find (λ c, c = "file") columns) as [[i c]|] eqn:Hfind.
  - apply list_find_Some in Hfind as (Hi & -> & Hleast).
    rewrite list_lookup_fmap, Hi. simpl. unfold os_path_relpath.
    destruct (relpath_error (f "file") root); [done|]. simpl. f_equal.
    apply list_eq. intros j. rewrite list_lookup_imap.
    destruct (decide (i = j)) as [<-|Hne].
    + rewrite list_lookup_insert_eq
        by (rewrite length_fmap; by eapply lookup_lt_Some).
      rewrite Hi. simpl. rewrite bool_decide_eq_true_2; [done|].
      split; [done|]. intros (j & Hj & Hlt)%elem_of_take.
      by eapply Hleast.
    + rewrite list_lookup_insert_ne, list_lookup_fmap by done.
      destruct (columns !! j) as [c|] eqn:Hj; simpl; [|done].
      rewrite bool_decide_eq_false_2; [done|].
      intros [-> Hnot]. apply Hnot, elem_of_take. exists i.
      split; [done|].
      destruct (decide (j < i)%nat) as [Hlt|Hge]; [|lia].
      by destruct (Hleast j "file" Hj Hlt).
  - apply list_find_None in Hfind.
    rewrite Forall_forall in Hfind. by destruct (Hfind _ Hin).
Qed.

(** The row of an item as the loop computes it. *)
Lemma row_first (columns : list string) (relroot : option string)
    (item : Analyzed) :
  (if opt_bool relroot && bool_decide ("file" ∈ columns)
   then call (relpath_file columns (render_rowdata item columns <$> columns)
                (default "" relroot))
   else mret (render_rowdata item columns <$> columns))
  = match refused columns relroot item with
    | Some e => MkRun ([] : list string) (Exc e)
    | None =>
        MkRun []
          (Done (imap (λ j column,
                         let cell := render_rowdata item columns column in
                         if bool_decide (opt_bool relroot = true
                                         ∧ column = "file"
                                         ∧ "file" ∉ take j columns)
                         then relpath cell (default "" relroot) else cell)
                   columns))
    end.
Proof.
  unfold refused. destruct (opt_bool relroot) eqn:Hroot; simpl.
  - case_bool_decide as Hin.
    + rewrite relpath_file_first by done. unfold call.
      destruct (relpath_error _ _); [done|]. do 2 f_equal.
      apply imap_ext. intros j c Hj. simpl.
      apply (f_equal (λ b : bool, if b then _ else _)).
      apply bool_decide_ext. tauto.
    + unfold mret, Run_ret. do 2 f_equal. apply list_eq. intros j.
      rewrite list_lookup_imap, list_lookup_fmap.
      destruct (columns !! j) as [c|] eqn:Hj; simpl; [|done].
      rewrite bool_decide_eq_false_2; [done|].
      intros (_ & -> & _). apply Hin. by eapply list_elem_of_lookup_2.
  - unfold mret, Run_ret. do 2 f_equal. apply list_eq. intros j.
    rewrite list_lookup_imap, list_lookup_fmap.
    by destruct (columns !! j).
Qed.

(** With distinct columns the first "file" column is the only one. *)
Lemma first_file_row_NoDup (columns : list string)
    (relroot : option string) (item : Analyzed) :
  NoDup columns →
  first_file_row columns relroot item = table_row columns relroot item.
Proof.
  intros Hnd. unfold first_file_row, table_row. f_equal.
  apply list_eq. intros j. rewrite list_lookup_imap, list_lookup_fmap.
  destruct (columns !! j) as [c|] eqn:Hj; simpl; [|done]. f_equal.
  unfold table_cell.
  assert ("file" ∉ take j columns ∨ c ≠ "file") as Hfirst.
  { destruct (decide (c = "file")) as [->|]; [left|by right].
    intros (i & Hi & Hlt)%elem_of_take.
    assert (i = j) by by eapply NoDup_lookup. lia. }
  destruct relroot as [[|a root]|]; simpl; [done| |done].
  apply (f_equal (λ b : bool, if b then _ else _)).
  apply bool_decide_ext. split; [by intros (_ & -> & _)|].
  intros [_ ->]. split_and!; [done..|]. by destruct Hfirst.
Qed.

(** The loop over items none of which is refused. *)
Lemma _render_rows_accepted (items : list Analyzed) (columns : list string)
    (relroot : option string) (total : nat) :
  Forall (λ item, refused columns relroot item = None) items →
  _render_rows items columns relroot total
  = MkRun (first_file_row columns relroot <$> items)
          (Done (total + length items)).
Proof.
  intros Hok. revert total.
  induction Hok as [|item items Hitem Hok IH]; intros total;
    cbn [_render_rows].
  - by rewrite Nat.add_0_r.
  - rewrite row_first, Hitem, bind_Done. cbn [trace outcome app].
    rewrite bind_yield, IH. simpl. do 2 f_equal. lia.
Qed.

(** The loop stops at the first item that is refused. *)
Lemma _render_rows_refused (before after : list Analyzed) (item : Analyzed)
    (e : PyExc) (columns : list string) (relroot : option string)
    (total : nat) :
  Forall (λ item, refused columns relroot item = None) before →
  refused columns relroot item = Some e →
  _render_rows (before ++ item :: after) columns relroot total
  = MkRun (first_file_row columns relroot <$> before) (Exc e).
Proof.
  intros Hok Hitem. revert total.
  induction Hok as [|item' before Hitem' Hok IH]; intros total;
    cbn [_render_rows app].
  - by rewrite row_first, Hitem, bind_Exc.
  - rewrite row_first, Hitem', bind_Done. cbn [trace outcome app].
    by rewrite bind_yield, IH.
Qed.

(** Either no item is refused, or there is a first one that is. *)
Lemma refused_first (items : list Analyzed) (columns : list string)
    (relroot : option string) :
  Forall (λ item, refused columns relroot item = None) items
  ∨ ∃ before item after e,
      items = (before ++ item :: after)%list
      ∧ Forall (λ item, refused columns relroot item = None) before
      ∧ refused columns relroot item = Some e.
Proof.
  induction items as [|item items IH]; [by left|].
  destruct (refused columns relroot item) as [e|] eqn:Hitem.
  - right. by exists [], item, items, e.
  - destruct IH as [Hok|(before & item' & after & e & -> & Hok & Hbad)].
    + left. by constructor.
    + right. exists (item :: before), item', after, e.
      split_and!; [done| |done]. by constructor.
Qed.

(** Without a root, or with an empty one, nothing is refused. *)
Lemma refused_no_root (columns : list string) (relroot : option string)
    (item : Analyzed) :
  opt_bool relroot = false → refused columns relroot item = None.
Proof. unfold refused. by intros ->. Qed.

Lemma _render_table_accepted (items : list Analyzed) (columns : list string)
    (relroot : option string) :
  Forall (λ item, refused columns relroot item = None) items →
  _render_table items columns relroot
  = MkRun ([String.concat (String TAB "") columns; "--------------------"]
           ++ (first_file_row columns relroot <$> items)
           ++ ["--------------------"; "total: " +:+ pretty (length items)])
          (Done tt).
Proof.
  intros Hok. unfold _render_table.
  by rewrite !bind_yield, _render_rows_accepted.
Qed.

Lemma _render_table_refused (before after : list Analyzed) (item : Analyzed)
    (e : PyExc) (columns : list string) (relroot : option string) :
  Forall (λ item, refused columns relroot item = None) before →
  refused columns relroot item = Some e →
  _render_table (before ++ item :: after) columns relroot
  = MkRun ([String.concat (String TAB "") columns; "--------------------"]
           ++ (first_file_row columns relroot <$> before))
          (Exc e).
Proof.
  intros Hok Hitem. unfold _render_table.
  by rewrite !bind_yield, (_render_rows_refused _ _ _ e).
Qed.

(** The name of a section shows in its second line only. *)
Lemma section_render_table (name : Key) (items : list Analyzed)
    (columns : list string) (relroot : option string) :
  section_render name items columns relroot
  = MkRun ("" :: (Key_str name +:+ ":") :: ""
              :: trace (_render_table items columns relroot))
          (outcome (_render_table items columns relroot)).
Proof. unfold section_render. by rewrite !bind_yield. Qed.

Lemma section_render_run (name : Key) (items : list Analyzed)
    (columns : list string) (relroot : option string) :
  NoDup columns →
  Forall (λ item, refused columns relroot item = None) items →
  section_render name items columns relroot
  = MkRun (section_lines (Key_str name) columns relroot items) (Done tt).
Proof.
  intros Hnd Hok.
  rewrite section_render_table, _render_table_accepted by done.
  unfold section_lines, section_head. cbn [trace outcome app].
  by rewrite (list_fmap_ext _ (table_row columns relroot) items)
    by (intros _ item _; by apply first_file_row_NoDup).
Qed.

Lemma section_render_refused (name : Key) (before after : list Analyzed)
    (item : Analyzed) (e : PyExc) (columns : list string)
    (relroot : option string) :
  NoDup columns →
  Forall (λ item, refused columns relroot item = None) before →
  refused columns relroot item = Some e →
  section_render name (before ++ item :: after) columns relroot
  = MkRun (section_head (Key_str name) columns
           ++ (table_row columns relroot <$> before))
          (Exc e).
Proof.
  intros Hnd Hok Hitem.
  rewrite section_render_table, (_render_table_refused _ _ _ e) by done.
  unfold section_head. cbn [trace outcome app].
  by rewrite (list_fmap_ext _ (table_row columns relroot) before)
    by (intros _ item' _; by apply first_file_row_NoDup).
Qed.

(** A rendering that completes has rendered every item. *)
Lemma section_render_Done (name : Key) (items : list Analyzed)
    (columns : list string) (relroot : option string) :
  NoDup columns →
  outcome (section_render name items columns relroot) = Done tt →
  section_render name items columns relroot
  = MkRun (section_lines (Key_str name) columns relroot items) (Done tt).
Proof.
  intros Hnd Hdone.
  destruct (refused_first items columns relroot)
    as [Hok|(before & item & after & e & -> & Hok & Hbad)].
  - by apply section_render_run.
  - by rewrite (section_render_refused _ _ _ _ e) in Hdone.
Qed.
End Table.

Section Resolution.
Context `{Collaborators}.

(** The four sections whose entry is a tuple. *)
Lemma canonical_in_table (c : string) :
  c ∈ ["types"; "functions"; "variables"; "statements"] →
  ∃ columns match_kind sortkey,
    TABLE_SECTIONS !! KStr c = Some (Triple columns match_kind sortkey)
    ∧ NoDup columns.
Proof.
  rewrite !elem_of_cons, elem_of_nil.
  intros [->|[->|[->|[->|[]]]]]; do 3 eexists;
    (split; [reflexivity | compute_done]).
Qed.

(** Every key of the table reaches the tuple of its canonical section
    in at most two iterations of the loop, which leaves in [name] the
    name the section is shown under. *)
Lemma resolve_section_known (k : Key) (info : SectionInfo) (bound : nat) :
  TABLE_SECTIONS !! k = Some info → (2 ≤ bound)%nat →
  ∃ c columns match_kind sortkey,
    canonical k = Some c
    ∧ c ∈ ["types"; "functions"; "variables"; "statements"]
    ∧ TABLE_SECTIONS !! KStr c = Some (Triple columns match_kind sortkey)
    ∧ NoDup columns
    ∧ resolve_section bound k info
      = Done (KStr (shown_name k), (columns, match_kind, sortkey)).
Proof.
  intros Hk Hbound.
  apply elem_of_list_to_map_2 in Hk.
  (* the last call sees a tuple: it returns whatever is left of the bound *)
  destruct bound as [|[|[|bound]]]; [lia..| |];
    repeat (apply elem_of_cons in Hk as [Hk|Hk];
            [injection Hk as -> ->; do 4 eexists;
             split_and!; [reflexivity | compute_done
                         | reflexivity | compute_done
                         | reflexivity] |]);
    by apply elem_of_nil in Hk.
Qed.


Lemma build_section_within_unknown (bound : nat) (k : Key)
    (groupitems : list Analyzed) (relroot : option string) :
  TABLE_SECTIONS !! k = None →
  build_section_within bound k groupitems relroot = Exc (KeyError k).
Proof. intros Hk. unfold build_section_within, getitem. by rewrite Hk. Qed.

Lemma build_section_within_known (bound : nat) (k : Key)
    (info : SectionInfo) (groupitems : list Analyzed)
    (relroot : option string) :
  TABLE_SECTIONS !! k = Some info → (2 ≤ bound)%nat →
  ∃ c columns match_kind sortkey,
    canonical k = Some c
    ∧ c ∈ ["types"; "functions"; "variables"; "statements"]
    ∧ TABLE_SECTIONS !! KStr c = Some (Triple columns match_kind sortkey)
    ∧ NoDup columns
    ∧ let items :=
        sorted_key sortkey
          (filter (λ v, match_kind (kind v) = true) groupitems) in
      build_section_within bound k groupitems relroot
      = Done (items,
              section_render (KStr (shown_name k)) items columns relroot).
Proof.
  intros Hk Hbound.
  destruct (resolve_section_known k info bound Hk Hbound)
    as (c & columns & match_kind & sortkey & Hc & Hin & Hsec & Hnd & Hres).
  exists c, columns, match_kind, sortkey. split_and!; [done..|].
  unfold build_section_within, getitem. rewrite Hk. simpl.
  by rewrite Hres.
Qed.
End Resolution.

Section Canonical.
Context `{Collaborators}.

Lemma size_TABLE_SECTIONS : size TABLE_SECTIONS = 15.
Proof. by vm_compute. Qed.

Lemma size_canonical_entries : size canonical_entries = 4.
Proof. by vm_compute. Qed.

Lemma columns_of_entry (c : string) columns match_kind sortkey :
  TABLE_SECTIONS !! KStr c = Some (Triple columns match_kind sortkey) →
  columns_of c = columns.
Proof. unfold columns_of. by intros ->. Qed.

(** The four canonical sections differ in their columns. *)
Lemma columns_of_inj (c c' : string) :
  c ∈ ["types"; "functions"; "variables"; "statements"] →
  c' ∈ ["types"; "functions"; "variables"; "statements"] →
  columns_of c = columns_of c' → c = c'.
Proof.
  rewrite !elem_of_cons, !elem_of_nil.
  intros [->|[->|[->|[->|[]]]]] [->|[->|[->|[->|[]]]]] Heq;
    first [done | vm_compute in Heq; discriminate Heq].
Qed.
End Canonical.

(* ===================================================================== *)
(** * Properties of [build_section] *)




(** C9: filtering and sorting is idempotent.  For every key of the section
    table, running [build_section] on the items it returned gives the same
    items in the same order, and the same rendering, so the same total:
    the last line of a rendering that completes, as every rendering
    without a root does. *)
Theorem build_section_idempotent `{Collaborators} (name : Key)
    (info : SectionInfo) (groupitems : list Analyzed)
    (relroot : option string) :
  TABLE_SECTIONS !! name = Some info →
  ∃ items lines,
    build_section name groupitems relroot = Done (items, lines)
    ∧ build_section name items relroot = Done (items, lines)
    ∧ (outcome lines = Done tt →
       last (trace lines) = Some ("total: " +:+ pretty (length items)))
    ∧ (opt_bool relroot = false → outcome lines = Done tt).
Proof.
  intros Hname.
  assert (2 ≤ size TABLE_SECTIONS)%nat as Hsize
    by (rewrite size_TABLE_SECTIONS; lia).
  destruct (build_section_within_known _ name info groupitems relroot
              Hname Hsize)
    as (c & columns & match_kind & sortkey & Hc & _ & Hsec & Hnd & Hbuild).
  simpl in Hbuild. eexists _, _. split; [exact Hbuild|]. split; [|split].
  - destruct (build_section_within_known _ name info
                (sorted_key sortkey
                   (filter (λ v, match_kind (kind v) = true) groupitems))
                relroot Hname Hsize)
      as (c' & columns' & match_kind' & sortkey' & Hc' & _ & Hsec' & _
          & Hagain).
    rewrite Hc in Hc'. injection Hc' as <-.
    rewrite Hsec in Hsec'. injection Hsec' as <- <- <-.
    simpl in Hagain. unfold build_section. rewrite Hagain.
    by rewrite filter_sorted_idempotent.
  - intros Hdone. rewrite section_render_Done by done.
    unfold section_lines. cbn [trace]. by rewrite !last_app.
  - intros Hroot. rewrite section_render_run; [done..|].
    apply Forall_forall. intros item _. by apply refused_no_root.
Qed.

Lemma build_section_idempotent_witness :
  TABLE_SECTIONS !! KStr "structs" = Some (Alias "types")
  ∧ ∃ items lines,
      build_section (KStr "structs") Sample.analysis None
      = Done (items, lines)
      ∧ build_section (KStr "structs") items None = Done (items, lines)
      ∧ last (trace lines) = Some ("total: " +:+ pretty (length items)).
Proof.
  split; [reflexivity|].
  destruct (build_section_idempotent (KStr "structs") (Alias "types")
              Sample.analysis None eq_refl)
    as (items & lines & Hbuild & Hagain & Hlast & Hdone).
  exists items, lines. split_and!; [done..|]. by apply Hlast, Hdone.
Defined.

(** C7, as the code has it: the table has four canonical sections, not
    six.  For every key of the table the alias loop ends within two
    iterations, whatever larger bound it is given, at the tuple of exactly
    one of the four canonical sections "types", "functions", "variables"
    and "statements"; for every name that is not a key, [build_section]
    raises [KeyError], a lookup error, before any line is yielded.  For no
    name at all is the bound put on the loop reached. *)
Theorem build_section_resolution `{Collaborators} (name : Key) :
  size canonical_entries = 4
  ∧ (∀ info bound,
       TABLE_SECTIONS !! name = Some info → (2 ≤ bound)%nat →
       ∃ shown columns match_kind sortkey,
         resolve_section bound name info
         = Done (shown, (columns, match_kind, sortkey))
         ∧ exists! c, c ∈ ["types"; "functions"; "variables"; "statements"]
                 ∧ TABLE_SECTIONS !! KStr c
                   = Some (Triple columns match_kind sortkey))
  ∧ (TABLE_SECTIONS !! name = None →
     ∀ groupitems relroot,
       build_section name groupitems relroot = Exc (KeyError name)
       ∧ is_LookupError (KeyError name) = true
       ∧ (call (build_section name groupitems relroot)
            ≫= (λ '(_, lines), lines) : Gen)
         = MkRun [] (Exc (KeyError name)))
  ∧ (∀ groupitems relroot,
       build_section name groupitems relroot ≠ Unfinished).
Proof.
  split; [apply size_canonical_entries|]. split; [|split].
  - intros info bound Hname Hbound.
    destruct (resolve_section_known name info bound Hname Hbound)
      as (c & columns & match_kind & sortkey & _ & Hin & Hsec & _ & Hres).
    exists (KStr (shown_name name)), columns, match_kind, sortkey.
    split; [done|]. exists c. split; [done|].
    intros c' [Hin' Hsec']. apply columns_of_inj; [done..|].
    by rewrite (columns_of_entry _ _ _ _ Hsec),
               (columns_of_entry _ _ _ _ Hsec').
  - intros Hname groupitems relroot.
    assert (build_section name groupitems relroot = Exc (KeyError name))
      as Hraise by by apply build_section_within_unknown.
    by rewrite Hraise.
  - intros groupitems relroot. unfold build_section.
    destruct (TABLE_SECTIONS !! name) as [info|] eqn:Hname.
    + destruct (build_section_within_known (size TABLE_SECTIONS) name info
                  groupitems relroot Hname)
        as (? & ? & ? & ? & _ & _ & _ & _ & ->); [|done].
      rewrite size_TABLE_SECTIONS. lia.
    + by rewrite build_section_within_unknown.
Qed.

Lemma build_section_resolution_witness :
  TABLE_SECTIONS !! KKind ENUM = Some (Alias "enums")
  ∧ (2 ≤ 2)%nat
  ∧ TABLE_SECTIONS !! KStr "enumerations" = None
  ∧ (∃ shown columns match_kind sortkey,
       resolve_section 2 (KKind ENUM) (Alias "enums")
       = Done (shown, (columns, match_kind, sortkey))
       ∧ exists! c, c ∈ ["types"; "functions"; "variables"; "statements"]
               ∧ TABLE_SECTIONS !! KStr c
                 = Some (Triple columns match_kind sortkey))
  ∧ build_section (KStr "enumerations") Sample.analysis None
    = Exc (KeyError (KStr "enumerations")).
Proof.
  split; [reflexivity|]. split; [lia|]. split; [reflexivity|]. split.
  - exact (proj1 (proj2 (build_section_resolution (KKind ENUM)))
             (Alias "enums") 2 eq_refl (le_n 2)).
  - exact (proj1 (proj1 (proj2 (proj2 (build_section_resolution
                                         (KStr "enumerations"))))
                    eq_refl Sample.analysis None)).
Defined.

(** Against C7 as written: the canonical sections of the table are not
    six. *)
Lemma canonical_sections_not_six : size canonical_entries ≠ 6.
Proof. by vm_compute. Qed.

(* ===================================================================== *)
(** * Properties of the formats *)

Section Formats.
Context `{Collaborators}.

Lemma list_bind_nil {A B} (f : A → list B) : [] ≫= f = [].
Proof. done. Qed.

Lemma section_run (items : list Analyzed) (c : string) :
  c ∈ ["types"; "functions"; "variables"; "statements"] →
  ∃ lines, section items c = MkRun lines (Done tt).
Proof.
  intros Hc.
  destruct (canonical_in_table c Hc) as (columns & mk & sk & Hsec & _).
  destruct (build_section_within_known (size TABLE_SECTIONS) (KStr c) _
              items None Hsec)
    as (_ & columns' & mk' & sk' & _ & _ & _ & Hnd & Hbuild).
  { rewrite size_TABLE_SECTIONS. lia. }
  simpl in Hbuild. unfold section, build_section. rewrite Hbuild.
  unfold call. rewrite bind_Done. cbn [trace outcome app].
  rewrite section_render_run; [by eexists|done|].
  apply Forall_forall. intros item _. by apply refused_no_root.
Qed.

Lemma fmt_summary_run (analysis : list Analyzed) :
  ∃ body,
    fmt_summary analysis
    = MkRun (body ++ [""; "grand total: " +:+ pretty (length analysis)])
            (Done tt).
Proof.
  unfold fmt_summary.
  destruct (section_run analysis "types") as [l1 ->]; [compute_done|].
  destruct (section_run analysis "functions") as [l2 ->]; [compute_done|].
  destruct (section_run analysis "variables") as [l3 ->]; [compute_done|].
  destruct (section_run analysis "statements") as [l4 ->]; [compute_done|].
  exists (l1 ++ l2 ++ l3 ++ l4)%list.
  rewrite !bind_Done, !bind_yield. simpl. by rewrite <-!app_assoc.
Qed.

(** The items rendered for one kind. *)
Lemma for_kind_run (items : list Analyzed) (k : KIND) :
  for_ items (λ item,
    if bool_decide (kind item ≠ k) then mret tt
    else yield_from (render item "brief"))
  = MkRun (filter (λ item, kind item = k) items
             ≫= λ item, render item "brief")
          (Done tt).
Proof.
  rewrite (for_Done items _
             (λ item, if bool_decide (kind item ≠ k) then []
                      else render item "brief"))
    by (intros item; by case_bool_decide).
  f_equal. induction items as [|item items IH]; [done|].
  rewrite bind_cons, filter_cons, IH.
  by case_bool_decide; case_decide.
Qed.

Lemma fmt_brief_run (analysis : list Analyzed) :
  fmt_brief analysis
  = MkRun ((brief_items analysis ≫= λ item, render item "brief")
           ++ ["  total: " +:+ pretty (length analysis)])
          (Done tt).
Proof.
  unfold fmt_brief, brief_items.
  rewrite (for_Done KINDS _
             (λ k, if bool_decide (k = STATEMENT) then []
                   else filter (λ item, kind item = k)
                               (sorted item_lt analysis)
                          ≫= λ item, render item "brief")).
  - rewrite bind_Done, sorted_length. cbn [trace outcome yield]. f_equal.
    unfold KINDS. rewrite !bind_cons, !list_bind_nil, !bind_app.
    rewrite !bool_decide_eq_false_2 by done.
    rewrite bool_decide_eq_true_2 by done.
    by rewrite !app_nil_r, <-!app_assoc.
  - intros k. case_bool_decide; [done|]. apply for_kind_run.
Qed.

Lemma bind_filter_kind_nil (ks : list KIND) :
  ks ≫= (λ k, filter (λ item : Analyzed, kind item = k) []) = [].
Proof. induction ks as [|k ks IH]; [done|]. by rewrite bind_cons, IH. Qed.

Lemma bind_filter_kind_cons (ks : list KIND) (x : Analyzed)
    (l : list Analyzed) :
  NoDup ks →
  ks ≫= (λ k, filter (λ item, kind item = k) (x :: l))
  ≡ₚ (if bool_decide (kind x ∈ ks) then [x] else [])
     ++ (ks ≫= λ k, filter (λ item, kind item = k) l).
Proof.
  induction 1 as [|k ks Hk Hnd IH]; [done|].
  rewrite !bind_cons, IH, filter_cons.
  destruct (decide (kind x = k)) as [Hx|Hx].
  - subst k. rewrite (bool_decide_eq_true_2 (kind x ∈ kind x :: ks)) by left.
    by rewrite (bool_decide_eq_false_2 (kind x ∈ ks)).
  - rewrite (bool_decide_ext (kind x ∈ k :: ks) (kind x ∈ ks)).
    + apply Permutation_app_swap_app.
    + rewrite elem_of_cons. split; [by intros [?|?] | by right].
Qed.

Lemma brief_items_Permutation (analysis : list Analyzed) :
  brief_items analysis ≡ₚ filter (λ v, kind v ≠ STATEMENT) analysis.
Proof.
  unfold brief_items.
  transitivity ([TYPEDEF; STRUCT; UNION; ENUM; FUNCTION; VARIABLE]
                  ≫= λ k, filter (λ item, kind item = k) analysis).
  { rewrite !bind_cons, !list_bind_nil. by rewrite !sorted_Permutation. }
  induction analysis as [|x l IH].
  - by rewrite bind_filter_kind_nil.
  - rewrite bind_filter_kind_cons by compute_done.
    rewrite IH, filter_cons.
    destruct (decide (kind x ≠ STATEMENT)) as [Hx|Hx];
      case_bool_decide as Hin; try done.
    + exfalso. apply Hin. destruct (kind x); try done; compute_done.
    + exfalso. apply Hx. intros Hs. rewrite Hs in Hin.
      by apply (bool_decide_pack _) in Hin.
Qed.
End Formats.

(** C1: the lines of the summary format end with a blank line and
    "grand total: N", N the number of entities in the collection; the
    same N is printed for every permutation of the collection.  This
    holds for every collection, the empty one included. *)
Theorem fmt_summary_grand_total `{Collaborators} (analysis : list Analyzed) :
  (∃ body,
     fmt_summary analysis
     = MkRun (body ++ [""; "grand total: " +:+ pretty (length analysis)])
             (Done tt))
  ∧ ∀ analysis',
      analysis' ≡ₚ analysis →
      ∃ body',
        fmt_summary analysis'
        = MkRun (body' ++ [""; "grand total: " +:+ pretty (length analysis)])
                (Done tt).
Proof.
  split; [apply fmt_summary_run|].
  intros analysis' Hperm. rewrite <-(Permutation_length Hperm).
  apply fmt_summary_run.
Qed.

Lemma fmt_summary_grand_total_witness :
  [Sample.Point; Sample.add; Sample.count] ≡ₚ
    [Sample.count; Sample.add; Sample.Point]
  ∧ ∃ body',
      fmt_summary [Sample.Point; Sample.add; Sample.count]
      = MkRun (body' ++ [""; "grand total: 3"]) (Done tt).
Proof.
  assert ([Sample.Point; Sample.add; Sample.count] ≡ₚ
            [Sample.count; Sample.add; Sample.Point]) as Hperm.
  { exact (Permutation_rev [Sample.Point; Sample.add; Sample.count]). }
  split; [exact Hperm|].
  exact (proj2 (fmt_summary_grand_total
                  [Sample.count; Sample.add; Sample.Point]) _ Hperm).
Defined.

(** C10: the last line of the brief format is "  total: N" with N the
    number of all entities of the input.  The entities rendered are those
    whose kind is not statement, so when the input has a statement the
    printed total is larger than the number of entities rendered. *)
Theorem fmt_brief_total `{Collaborators} (analysis : list Analyzed) :
  ∃ rendered,
    fmt_brief analysis
    = MkRun ((rendered ≫= λ item, render item "brief")
             ++ ["  total: " +:+ pretty (length analysis)])
            (Done tt)
    ∧ rendered ≡ₚ filter (λ v, kind v ≠ STATEMENT) analysis
    ∧ ((∃ v, v ∈ analysis ∧ kind v = STATEMENT) →
       (length rendered < length analysis)%nat).
Proof.
  exists (brief_items analysis). split; [apply fmt_brief_run|].
  split; [apply brief_items_Permutation|].
  intros (v & Hv & Hkind). rewrite brief_items_Permutation.
  apply (length_filter_lt _ _ v); [done|]. by intros Hne.
Qed.

Lemma fmt_brief_total_witness :
  (∃ v, v ∈ Sample.analysis ∧ kind v = STATEMENT)
  ∧ ∃ rendered,
      fmt_brief Sample.analysis
      = MkRun ((rendered ≫= λ item, render item "brief")
               ++ ["  total: 4"]) (Done tt)
      ∧ (length rendered < 4)%nat.
Proof.
  assert (∃ v, v ∈ Sample.analysis ∧ kind v = STATEMENT) as Hstmt.
  { exists Sample.stmt. split; [right; left | reflexivity]. }
  split; [exact Hstmt|].
  destruct (fmt_brief_total Sample.analysis)
    as (rendered & Hrun & _ & Hlt).
  exists rendered. split; [exact Hrun | exact (Hlt Hstmt)].
Defined.

(* ===================================================================== *)
(** * Properties of the failure handlers *)

(** [s.split('\t')[0]] is the part of [s] before its first tab. *)
Lemma split_tab_0_spec (s : string) :
  ∃ rest,
    s = (split_tab_0 s +:+ rest)
    ∧ (TAB ∉ list_ascii_of_string (split_tab_0 s))
    ∧ (rest = "" ∨ ∃ r, rest = String TAB r).
Proof.
  induction s as [|c s (rest & Hs & Hno & Hrest)]; simpl.
  - exists "". split_and!; [done | apply not_elem_of_nil | by left].
  - destruct (Ascii.eqb_spec c TAB) as [->|Hc]; simpl.
    + exists (String TAB s).
      split_and!; [done | apply not_elem_of_nil | right; by eexists].
    + exists rest. split_and!; [by rewrite Hs at 1 | | done].
      rewrite not_elem_of_cons. split; [by intros <- | done].
Qed.

(** C8: the brief handler prints the one line "file:name - failure".  The
    name is "(func).entity" when the parent gives a function name (a
    non-empty label, or the non-empty name of a parent entity) and the
    entity's name alone otherwise; the failure shown is the part of the
    message before its first tab.  For the variable "buf" of "geom.c" with
    parent "add" and the message "unsupported type<TAB>details..." the line
    is "geom.c:(add).buf - unsupported type". *)
Theorem handle_failure_brief_line `{Collaborators} (failure : string)
    (data : Analyzed) (verbosity : nat) (known : bool) :
  ∃ handlers,
    _get_check_handlers (Some "brief") verbosity = Done handlers
    ∧ (∃ shown segment rest,
         handle_failure handlers failure data
         = MkRun [PrintLine (filename data +:+ ":" +:+ shown +:+ " - "
                         +:+ segment)]
                 (Done tt)
         ∧ shown = match parent data with
                   | ParentNone => name data
                   | ParentStr func =>
                       if bool_decide (func = "") then name data
                       else "(" +:+ func +:+ ")." +:+ name data
                   | ParentItem p =>
                       if bool_decide (name p = "") then name data
                       else "(" +:+ name p +:+ ")." +:+ name data
                   end
         ∧ failure = (segment +:+ rest)
         ∧ (TAB ∉ list_ascii_of_string segment)
         ∧ (rest = "" ∨ ∃ r, rest = String TAB r))
    ∧ handle_failure handlers
        ("unsupported type" +:+ String TAB "details...")
        (MkAnalyzed VARIABLE "buf" "geom.c" (ParentStr "add") known)
      = MkRun [PrintLine "geom.c:(add).buf - unsupported type"] (Done tt).
Proof.
  eexists. split; [reflexivity|]. split; [|reflexivity].
  destruct (split_tab_0_spec failure) as (rest & Hsplit & Hno & Hrest).
  eexists _, (split_tab_0 failure), rest.
  split; [reflexivity|]. split; [|done].
  unfold funcname_of. destruct (parent data) as [|func|p]; [done| |].
  - by destruct func.
  - by destruct (name p).
Qed.

(* ===================================================================== *)
(** * Properties of the commands *)

Section Checks.
Context `{Collaborators}.

Lemma registry_get_unknown (_CHECKS : Registry) (c : string) :
  c ∉ _CHECKS.*1 → registry_get _CHECKS c = Exc (KeyError (KStr c)).
Proof.
  induction _CHECKS as [|[c' check] rest IH]; simpl; [done|].
  rewrite not_elem_of_cons. intros [Hne Hrest].
  rewrite bool_decide_eq_false_2 by done. by apply IH.
Qed.

Lemma registry_get_known (_CHECKS : Registry) (c : string) :
  c ∈ _CHECKS.*1 → ∃ check, registry_get _CHECKS c = Done check.
Proof.
  induction _CHECKS as [|[c' check] rest IH]; simpl.
  - by intros ?%elem_of_nil.
  - case_bool_decide as Hc; [by eexists|].
    rewrite elem_of_cons. intros [->|Hrest]; [done | by apply IH].
Qed.

(** The list comprehension stops at the first name that is not in the
    registry. *)
Lemma lookup_checks_unknown (_CHECKS : Registry) (checks : list CheckRef) :
  (∃ c, CheckName c ∈ checks ∧ (c ∉ _CHECKS.*1)) →
  ∃ c, CheckName c ∈ checks ∧ (c ∉ _CHECKS.*1)
       ∧ lookup_checks _CHECKS checks = Exc (KeyError (KStr c)).
Proof.
  induction checks as [|ref checks IH]; intros (c & Hin & Hc).
  - by apply elem_of_nil in Hin.
  - destruct ref as [c'|check].
    + destruct (decide (c' ∈ _CHECKS.*1)) as [Hknown|Hunknown].
      * destruct (registry_get_known _ _ Hknown) as [check Hget].
        apply elem_of_cons in Hin as [Heq|Hin]; [congruence|].
        destruct IH as (c0 & Hin0 & Hc0 & Hraise); [by exists c|].
        exists c0. split_and!; [by right | done |].
        simpl. rewrite Hget. simpl. by rewrite Hraise.
      * exists c'. split_and!; [by left | done |].
        simpl. by rewrite registry_get_unknown.
    + apply elem_of_cons in Hin as [Heq|Hin]; [done|].
      destruct IH as (c0 & Hin0 & Hc0 & Hraise); [by exists c|].
      exists c0. split_and!; [by right | done |].
      simpl. by rewrite Hraise.
Qed.
End Checks.

(** C4: when the list of requested checks names a check that is not in
    the registry, [cmd_check] raises [KeyError] (a [LookupError]) for the
    first such name, and its run has emitted nothing by then: no log
    line, no output, no call of the analyzer; no check has been run. *)
Theorem cmd_check_unknown_check `{Collaborators} (filenames : list string)
    (checks : list CheckRef) (fmt relroot : option string) (failfast : bool)
    (iter_filenames : option (list string → list string)) (verbosity : nat)
    (_analyze : list string → list Analyzed) (_CHECKS : Registry) :
  (∃ c, CheckName c ∈ checks ∧ (c ∉ _CHECKS.*1)) →
  ∃ c, CheckName c ∈ checks ∧ (c ∉ _CHECKS.*1)
       ∧ cmd_check filenames (ChecksList checks) fmt relroot failfast
           iter_filenames verbosity _analyze _CHECKS
         = MkRun [] (Exc (KeyError (KStr c)))
       ∧ is_LookupError (KeyError (KStr c)) = true.
Proof.
  intros Hunknown.
  destruct (lookup_checks_unknown _CHECKS checks Hunknown)
    as (c & Hin & Hc & Hraise).
  exists c. split_and!; [done..| |done].
  unfold cmd_check, resolve_checks, checks_empty.
  rewrite bool_decide_eq_false_2 by (by intros ->; apply elem_of_nil in Hin).
  by rewrite Hraise.
Qed.

Lemma cmd_check_unknown_check_witness :
  (∃ c, CheckName c ∈ [CheckName "unknown"; CheckName "nope"]
        ∧ (c ∉ Sample.CHECKS.*1))
  ∧ ∃ c, CheckName c ∈ [CheckName "unknown"; CheckName "nope"]
         ∧ (c ∉ Sample.CHECKS.*1)
         ∧ cmd_check ["a.c"]
             (ChecksList [CheckName "unknown"; CheckName "nope"])
             (Some "full") None true None 3 Sample.analyze Sample.CHECKS
           = MkRun [] (Exc (KeyError (KStr c)))
         ∧ is_LookupError (KeyError (KStr c)) = true.
Proof.
  assert (∃ c, CheckName c ∈ [CheckName "unknown"; CheckName "nope"]
               ∧ (c ∉ Sample.CHECKS.*1)) as Hunknown.
  { exists "nope". split; [right; left | compute_done]. }
  split; [exact Hunknown|].
  exact (cmd_check_unknown_check ["a.c"]
           [CheckName "unknown"; CheckName "nope"] (Some "full") None
           true None 3 Sample.analyze Sample.CHECKS Hunknown).
Defined.

Section Commands.
Context `{Collaborators}.

Lemma FORMATS_unknown (fmt : string) :
  fmt ∉ ["raw"; "brief"; "summary"; "full"] → FORMATS !! fmt = None.
Proof. intros Hfmt. by apply not_elem_of_list_to_map. Qed.

Lemma _get_check_handlers_unknown (fmt : string) (verbosity : nat) :
  fmt ∉ ["raw"; "brief"; "summary"; "full"] → fmt ≠ "" →
  _get_check_handlers (Some fmt) verbosity
  = Exc (ValueError ("unsupported fmt " +:+ str_repr fmt)).
Proof.
  intros Hfmt Hne. unfold _get_check_handlers.
  assert (opt_bool (Some fmt) = true) as -> by by destruct fmt.
  rewrite !not_elem_of_cons in Hfmt.
  destruct Hfmt as (Hraw & Hbrief & Hsummary & Hfull & _). simpl.
  rewrite !bool_decide_eq_false_2; [done|..]; try congruence.
  rewrite FORMATS_unknown; [by intros [? ?]|].
  rewrite !not_elem_of_cons. split_and!; [done..|apply not_elem_of_nil].
Qed.

(** The handlers of every format complete, and [handle_after] does
    nothing. *)
Lemma handlers_Done (fmt : option string) (verbosity : nat)
    (handlers : Handlers) :
  _get_check_handlers fmt verbosity = Done handlers →
  (∀ failure data,
     handle_failure handlers failure data
     = MkRun (trace (handle_failure handlers failure data)) (Done tt))
  ∧ handle_after handlers = MkRun [] (Done tt).
Proof.
  unfold _get_check_handlers. intros Hget.
  repeat match type of Hget with
         | (if ?b then _ else _) = _ => destruct b
         end;
    try discriminate Hget; injection Hget as <-; (split; [|done]);
    intros failure data; simpl; try done.
  unfold handle_failure_plain. by case_bool_decide.
Qed.

Lemma check_loop_real (handlers : Handlers)
    (failures : list (Analyzed * string)) (numfailed : nat) :
  (∀ failure data,
     handle_failure handlers failure data
     = MkRun (trace (handle_failure handlers failure data)) (Done tt)) →
  ∃ events,
    check_loop ((λ '(data, failure), (Some data, failure)) <$> failures)
      handlers numfailed
    = MkRun events (Done (numfailed + length failures)).
Proof.
  intros Hdone. revert numfailed.
  induction failures as [|[data failure] failures IH]; intros numfailed.
  - exists []. simpl. by rewrite Nat.add_0_r.
  - destruct (IH (S numfailed)) as [events Hrest].
    rewrite fmap_cons. cbn [check_loop]. rewrite Hrest, Hdone.
    destruct (div handlers) as [div_|]; [case_bool_decide|];
      eexists; rewrite ?bind_yield, ?bind_ret, !bind_Done;
      cbn [trace outcome];
      (apply (f_equal2 MkRun); [reflexivity | f_equal; simpl; lia]).
Qed.

(** What [cmd_check] does around its loop. *)
Lemma cmd_check_run (filenames : list string) (checks : ChecksArg)
    (fmt relroot : option string) (failfast : bool)
    (iter_filenames : option (list string → list string)) (verbosity : nat)
    (_analyze : list string → list Analyzed) (_CHECKS : Registry)
    (cs : list Check) (handlers : Handlers) (events : list Event)
    (numfailed : nat) :
  resolve_checks checks _CHECKS = Done cs →
  _get_check_handlers fmt verbosity = Done handlers →
  let names := filter_filenames filenames iter_filenames in
  let analyzed :=
    if opt_bool relroot
    then fix_filenames (default "" relroot) (_analyze names)
    else _analyze names in
  check_loop (check_all analyzed cs failfast) handlers 0
  = MkRun events (Done numfailed) →
  cmd_check filenames checks fmt relroot failfast iter_filenames verbosity
    _analyze _CHECKS
  = MkRun ([LogInfo "analyzing..."; CallAnalyze names; LogInfo "checking..."]
           ++ events
           ++ [PrinterInfo "-------------------------";
               LogInfo ("total failures: " +:+ pretty numfailed);
               LogInfo "done checking"])
          (if bool_decide (0 < numfailed)%nat
           then Exc (SystemExit numfailed) else Done tt).
Proof.
  intros Hchecks Hhandlers names analyzed Hloop.
  destruct (handlers_Done _ _ _ Hhandlers) as [_ Hafter].
  unfold cmd_check. rewrite Hchecks, Hhandlers.
  unfold call. rewrite !bind_Done. cbn [trace outcome].
  rewrite !bind_yield. cbn [trace outcome].
  fold names. fold analyzed. rewrite Hloop, bind_Done, Hafter, bind_Done.
  rewrite !bind_yield. cbn [trace outcome].
  case_bool_decide; simpl; by rewrite <-?app_assoc.
Qed.
End Commands.

(** C5: format selection.  Each of "raw", "brief", "summary" and "full" is
    accepted, by the table of report formats and by the choice of failure
    handlers, which also accepts an absent or empty format.  Any other
    string makes [cmd_analyze] raise [ValueError] ("unsupported fmt ...")
    with nothing emitted, as does an absent format; any other non-empty
    string makes [_get_check_handlers] raise the same error, and so
    [cmd_check], with nothing emitted, once its checks are resolved. *)
Theorem format_selection `{Collaborators} (fmt : string) :
  (fmt ∈ ["raw"; "brief"; "summary"; "full"] →
   is_Some (FORMATS !! fmt)
   ∧ ∀ verbosity,
       ∃ handlers, _get_check_handlers (Some fmt) verbosity = Done handlers)
  ∧ (∀ verbosity,
       (∃ handlers, _get_check_handlers None verbosity = Done handlers)
       ∧ ∃ handlers, _get_check_handlers (Some "") verbosity = Done handlers)
  ∧ (∀ filenames iter_filenames verbosity _analyze,
       cmd_analyze filenames None iter_filenames verbosity _analyze FORMATS
       = MkRun [] (Exc (ValueError "unsupported fmt None")))
  ∧ (fmt ∉ ["raw"; "brief"; "summary"; "full"] →
     (∀ filenames iter_filenames verbosity _analyze,
        cmd_analyze filenames (Some fmt) iter_filenames verbosity _analyze
          FORMATS
        = MkRun [] (Exc (ValueError ("unsupported fmt " +:+ str_repr fmt))))
     ∧ (fmt ≠ "" →
        ∀ verbosity,
          _get_check_handlers (Some fmt) verbosity
          = Exc (ValueError ("unsupported fmt " +:+ str_repr fmt))
          ∧ ∀ filenames checks relroot failfast iter_filenames _analyze
              _CHECKS cs,
              resolve_checks checks _CHECKS = Done cs →
              cmd_check filenames checks (Some fmt) relroot failfast
                iter_filenames verbosity _analyze _CHECKS
              = MkRun [] (Exc (ValueError
                                 ("unsupported fmt " +:+ str_repr fmt))))).
Proof.
  split_and!.
  - rewrite !elem_of_cons, elem_of_nil.
    intros [->|[->|[->|[->|[]]]]]; (split; [by eexists|]);
      intros verbosity; by eexists.
  - intros verbosity. split; by eexists.
  - done.
  - intros Hfmt. split.
    + intros filenames iter_filenames verbosity _analyze.
      unfold cmd_analyze. simpl. by rewrite FORMATS_unknown.
    + intros Hne verbosity.
      pose proof (_get_check_handlers_unknown fmt verbosity Hfmt Hne)
        as Hraise.
      split; [done|].
      intros filenames checks relroot failfast iter_filenames _analyze
        _CHECKS cs Hchecks.
      unfold cmd_check. by rewrite Hchecks, Hraise.
Qed.

Lemma format_selection_witness :
  "brief" ∈ ["raw"; "brief"; "summary"; "full"]
  ∧ ("fancy" ∉ ["raw"; "brief"; "summary"; "full"])
  ∧ "fancy" ≠ ""
  ∧ resolve_checks (ChecksStr "unknown") Sample.CHECKS
    = Done [Sample.check_unknown]
  ∧ is_Some (FORMATS !! "brief")
  ∧ cmd_analyze ["a.c"] (Some "fancy") None None Sample.analyzer FORMATS
    = MkRun [] (Exc (ValueError ("unsupported fmt " +:+ str_repr "fancy")))
  ∧ cmd_check ["a.c"] (ChecksStr "unknown") (Some "fancy") None true None 3
      Sample.analyze Sample.CHECKS
    = MkRun [] (Exc (ValueError ("unsupported fmt " +:+ str_repr "fancy"))).
Proof.
  assert ("brief" ∈ ["raw"; "brief"; "summary"; "full"]) as Hin
    by (right; left).
  assert ("fancy" ∉ ["raw"; "brief"; "summary"; "full"]) as Hout
    by compute_done.
  assert ("fancy" ≠ "") as Hne by done.
  split_and!; [done..| | |].
  - exact (proj1 (proj1 (format_selection "brief") Hin)).
  - exact (proj1 (proj2 (proj2 (proj2 (format_selection "fancy"))) Hout)
             ["a.c"] None None Sample.analyzer).
  - exact (proj2 (proj2 (proj2 (proj2 (proj2 (format_selection "fancy")))
                           Hout) Hne 3)
             ["a.c"] (ChecksStr "unknown") None true None Sample.analyze
             Sample.CHECKS [Sample.check_unknown] eq_refl).
Defined.

(** C3: fail-fast.  On a pair whose data component is [None] the loop of
    [cmd_check] prints "stopping after one failure" and ends: the count is
    left as it was and the rest of the results is not read.  With
    [failfast] set, a run whose runner yields that pair has handled
    exactly one failure before it: it prints that one failure block, then
    the notice, and counts one failure. *)
Theorem cmd_check_failfast `{Collaborators} (filenames : list string)
    (checks : ChecksArg) (fmt relroot : option string)
    (iter_filenames : option (list string → list string)) (verbosity : nat)
    (_analyze : list string → list Analyzed) (_CHECKS : Registry)
    (cs : list Check) (handlers : Handlers) :
  resolve_checks checks _CHECKS = Done cs →
  _get_check_handlers fmt verbosity = Done handlers →
  let names := filter_filenames filenames iter_filenames in
  let analyzed :=
    if opt_bool relroot
    then fix_filenames (default "" relroot) (_analyze names)
    else _analyze names in
  (∀ failure rest numfailed,
     check_loop ((None, failure) :: rest) handlers numfailed
     = MkRun [PrinterInfo "stopping after one failure"] (Done numfailed))
  ∧ ((∃ failure, (None, failure) ∈ check_all analyzed cs true) →
     ∃ data failure,
       check_all analyzed cs true = [(Some data, failure); sentinel]
       ∧ cmd_check filenames checks fmt relroot true iter_filenames
           verbosity _analyze _CHECKS
         = MkRun ([LogInfo "analyzing..."; CallAnalyze names;
                   LogInfo "checking..."]
                  ++ trace (handle_failure handlers failure data)
                  ++ [PrinterInfo "stopping after one failure";
                      PrinterInfo "-------------------------";
                      LogInfo "total failures: 1";
                      LogInfo "done checking"])
                 (Exc (SystemExit 1))).
Proof.
  intros Hchecks Hhandlers names analyzed. split; [done|].
  intros [failure0 Hsentinel].
  destruct (handlers_Done _ _ _ Hhandlers) as [Hdone _].
  assert (∃ data failure,
            check_all analyzed cs true = [(Some data, failure); sentinel])
    as (data & failure & Hshape).
  { unfold check_all in *.
    destruct (cs ≫= λ check, check analyzed) as [|[data failure] failures].
    - by apply elem_of_nil in Hsentinel.
    - by exists data, failure. }
  exists data, failure. split; [done|].
  rewrite (cmd_check_run filenames checks fmt relroot true iter_filenames
             verbosity _analyze _CHECKS cs handlers
             (trace (handle_failure handlers failure data)
              ++ [PrinterInfo "stopping after one failure"]) 1
             Hchecks Hhandlers).
  - rewrite bool_decide_eq_true_2 by lia. by rewrite <-!app_assoc.
  - fold names analyzed. rewrite Hshape. cbn [check_loop sentinel].
    rewrite (bool_decide_eq_false_2 (0 < 0)%nat) by lia.
    rewrite Hdone.
    destruct (div handlers); by rewrite bind_ret, bind_Done, bind_yield.
Qed.

Lemma cmd_check_failfast_witness :
  resolve_checks ChecksNone Sample.CHECKS
  = Done [Sample.check_unknown; Sample.check_statements]
  ∧ (∃ failure,
       (None, failure)
       ∈ check_all (Sample.analyze ["a.c"])
           [Sample.check_unknown; Sample.check_statements] true)
  ∧ cmd_check ["a.c"] ChecksNone (Some "brief") None true None 3
      Sample.analyze Sample.CHECKS
    = MkRun [LogInfo "analyzing..."; CallAnalyze ["a.c"];
             LogInfo "checking...";
             PrintLine "geom.c:(add).buf - unsupported type";
             PrinterInfo "stopping after one failure";
             PrinterInfo "-------------------------";
             LogInfo "total failures: 1"; LogInfo "done checking"]
            (Exc (SystemExit 1)).
Proof.
  assert (∃ failure,
            (None, failure)
            ∈ check_all (Sample.analyze ["a.c"])
                [Sample.check_unknown; Sample.check_statements] true)
    as Hsentinel.
  { exists "". vm_compute. right; left. }
  split; [reflexivity|]. split; [exact Hsentinel|].
  destruct (proj2 (cmd_check_failfast ["a.c"] ChecksNone (Some "brief") None
                     None 3 Sample.analyze Sample.CHECKS _ _
                     eq_refl eq_refl) Hsentinel)
    as (data & failure & Hshape & Hrun).
  rewrite Hrun. vm_compute in Hshape. injection Hshape as <- <-.
  reflexivity.
Defined.

(** C2, as the code has it: [cmd_check] returns to its caller only when
    no failure was counted.  It logs the count, and when the count is
    positive it leaves through [sys.exit(numfailed)]: the exit status is
    the number of failures handled (all of them, or one with
    [failfast]). *)
Theorem cmd_check_exit `{Collaborators} (filenames : list string)
    (checks : ChecksArg) (fmt relroot : option string) (failfast : bool)
    (iter_filenames : option (list string → list string)) (verbosity : nat)
    (_analyze : list string → list Analyzed) (_CHECKS : Registry)
    (cs : list Check) (handlers : Handlers) :
  resolve_checks checks _CHECKS = Done cs →
  _get_check_handlers fmt verbosity = Done handlers →
  let names := filter_filenames filenames iter_filenames in
  let analyzed :=
    if opt_bool relroot
    then fix_filenames (default "" relroot) (_analyze names)
    else _analyze names in
  let failures := cs ≫= (λ check, check analyzed) in
  let numfailed :=
    if failfast then length failures `min` 1 else length failures in
  let run :=
    cmd_check filenames checks fmt relroot failfast iter_filenames
      verbosity _analyze _CHECKS in
  outcome run
  = (if bool_decide (numfailed = 0) then Done tt
     else Exc (SystemExit numfailed))
  ∧ LogInfo ("total failures: " +:+ pretty numfailed) ∈ trace run.
Proof.
  intros Hchecks Hhandlers names analyzed failures numfailed run.
  destruct (handlers_Done _ _ _ Hhandlers) as [Hdone _].
  assert (∃ events,
            check_loop (check_all analyzed cs failfast) handlers 0
            = MkRun events (Done numfailed)) as [events Hloop].
  { unfold check_all. fold failures. subst numfailed.
    destruct failfast.
    - destruct failures as [|[data failure] failures'].
      + by exists [].
      + eexists. cbn [check_loop sentinel].
        rewrite (bool_decide_eq_false_2 (0 < 0)%nat) by lia.
        rewrite Hdone.
        destruct (div handlers); rewrite bind_ret, bind_Done, bind_yield;
          (apply (f_equal2 MkRun); [reflexivity | simpl; f_equal; lia]).
    - apply (check_loop_real handlers failures 0 Hdone). }
  subst run.
  rewrite (cmd_check_run filenames checks fmt relroot failfast
             iter_filenames verbosity _analyze _CHECKS cs handlers events
             numfailed Hchecks Hhandlers Hloop).
  cbn [trace outcome]. split.
  - do 2 case_bool_decide; done || lia.
  - rewrite !elem_of_app, !elem_of_cons. right. right. right. by left.
Qed.

Lemma cmd_check_exit_witness :
  resolve_checks ChecksNone Sample.CHECKS
  = Done [Sample.check_unknown; Sample.check_statements]
  ∧ _get_check_handlers (Some "raw") 3
    = Done (MkHandlers handle_failure_raw (mret tt) None)
  ∧ outcome (cmd_check ["a.c"] ChecksNone (Some "raw") None false None 3
               Sample.analyze Sample.CHECKS)
    = Exc (SystemExit 3)
  ∧ outcome (cmd_check ["a.c"] ChecksNone (Some "raw") None false None 3
               (λ _, [Sample.add]) Sample.CHECKS)
    = Done tt.
Proof.
  split; [reflexivity|]. split; [reflexivity|]. split.
  - exact (proj1 (cmd_check_exit ["a.c"] ChecksNone (Some "raw") None false
                    None 3 Sample.analyze Sample.CHECKS _ _
                    eq_refl eq_refl)).
  - exact (proj1 (cmd_check_exit ["a.c"] ChecksNone (Some "raw") None false
                    None 3 (λ _, [Sample.add]) Sample.CHECKS _ _
                    eq_refl eq_refl)).
Defined.

(** Against C2 as written: a run that finds failures does not return to
    its caller; it leaves through [sys.exit]. *)
Lemma cmd_check_exits_on_failure :
  outcome (cmd_check ["a.c"] ChecksNone (Some "brief") None false None 3
             Sample.analyze Sample.CHECKS)
  = Exc (SystemExit 3)
  ∧ outcome (cmd_check ["a.c"] ChecksNone (Some "brief") None false None 3
               Sample.analyze Sample.CHECKS)
    ≠ Done tt.
Proof. split; [by vm_compute | by vm_compute]. Qed.

(* ===================================================================== *)
(** * More on sorting and the section table *)

Section Stability.
Context {A K : Type} `{EqDecision K} (lt : A → A → bool) (key : A → K).

(** [lt] compares keys: entities with the same key are not smaller than
    one another. *)
Hypothesis lt_key : ∀ a b, key a = key b → lt a b = false.

Lemma insort_filter_key (k : K) (x : A) (l : list A) :
  filter (λ v, key v = k) (insort lt x l)
  = filter (λ v, key v = k) (x :: l).
Proof.
  induction l as [|y l IH]; simpl; [done|].
  destruct (lt y x) eqn:Hyx; [|done].
  rewrite (filter_cons _ y), IH, !filter_cons.
  destruct (decide (key y = k)) as [Hy|Hy];
    destruct (decide (key x = k)) as [Hx|Hx]; try done.
  rewrite lt_key in Hyx by congruence. done.
Qed.

(** Sorting keeps the input order of the entities that share a key. *)
Lemma sorted_stable (k : K) (l : list A) :
  filter (λ v, key v = k) (sorted lt l) = filter (λ v, key v = k) l.
Proof.
  induction l as [|x l IH]; simpl; [done|].
  by rewrite insort_filter_key, !filter_cons, IH.
Qed.
End Stability.

Lemma tuple_lt_irrefl (a : list string) : tuple_lt a a = false.
Proof.
  induction a as [|x a IH]; simpl; [done|]. by rewrite String.eqb_refl.
Qed.

Section MoreSections.
Context `{Collaborators}.

Lemma entry_types :
  TABLE_SECTIONS !! KStr "types"
  = Some (Triple ["kind"; "name"; "data"; "file"] is_type_decl
            (λ v, [KIND_value (kind v); filename v; name v])).
Proof. reflexivity. Qed.

Lemma entry_functions :
  TABLE_SECTIONS !! KStr "functions"
  = Some (Triple ["name"; "data"; "file"]
            (λ kind, bool_decide (kind = FUNCTION))
            (λ v, [filename v; name v])).
Proof. reflexivity. Qed.

Lemma entry_variables :
  TABLE_SECTIONS !! KStr "variables"
  = Some (Triple ["name"; "parent"; "data"; "file"]
            (λ kind, bool_decide (kind = VARIABLE))
            (λ v, [filename v; parent_str v; name v])).
Proof. reflexivity. Qed.

Lemma entry_statements :
  TABLE_SECTIONS !! KStr "statements"
  = Some (Triple ["file"; "parent"; "data"]
            (λ kind, bool_decide (kind = STATEMENT))
            (λ v, [filename v; parent_str v; name v])).
Proof. reflexivity. Qed.

(** What [build_section] returns for a canonical section whose entry is
    known. *)
Lemma build_section_entry (c : string) (columns : list string)
    (match_kind : KIND → bool) (sortkey : Analyzed → list string)
    (groupitems : list Analyzed) (relroot : option string) :
  TABLE_SECTIONS !! KStr c = Some (Triple columns match_kind sortkey) →
  let items :=
    sorted_key sortkey (filter (λ v, match_kind (kind v) = true) groupitems) in
  NoDup columns
  ∧ build_section (KStr c) groupitems relroot
    = Done (items, section_render (KStr c) items columns relroot).
Proof.
  intros Hsec items.
  destruct (resolve_section_known (KStr c) _ 2 Hsec (le_n 2))
    as (c' & columns' & mk' & sk' & _ & _ & _ & Hnd & Hres).
  simpl in Hres. inversion Hres; subst columns' mk' sk'.
  split; [done|].
  unfold build_section, build_section_within, getitem.
  by rewrite Hsec, size_TABLE_SECTIONS.
Qed.
End MoreSections.

(** The predicates of the four canonical sections split a collection. *)
Lemma kinds_partition (l : list Analyzed) :
  filter (λ v, is_type_decl (kind v) = true) l
  ++ filter (λ v, bool_decide (kind v = FUNCTION) = true) l
  ++ filter (λ v, bool_decide (kind v = VARIABLE) = true) l
  ++ filter (λ v, bool_decide (kind v = STATEMENT) = true) l
  ≡ₚ l.
Proof.
  induction l as [|x l IH]; [done|].
  rewrite !filter_cons.
  destruct (kind x) eqn:Hkind; simpl;
    rewrite <-?Permutation_middle; by constructor.
Qed.

(** X1: the items [build_section] returns are the entities of the input
    whose kind the section's predicate accepts, each as often as it occurs
    in the input, and they are in the order of the section's sort key: no
    item has a key smaller than the key of the item before it. *)
Theorem build_section_items_sorted `{Collaborators} (name : Key)
    (info : SectionInfo) (groupitems : list Analyzed)
    (relroot : option string) :
  TABLE_SECTIONS !! name = Some info →
  ∃ c columns match_kind sortkey items lines,
    canonical name = Some c
    ∧ TABLE_SECTIONS !! KStr c = Some (Triple columns match_kind sortkey)
    ∧ build_section name groupitems relroot = Done (items, lines)
    ∧ items ≡ₚ filter (λ v, match_kind (kind v) = true) groupitems
    ∧ Sorted (λ a b, tuple_lt (sortkey b) (sortkey a) = false) items.
Proof.
  intros Hname.
  destruct (build_section_within_known (size TABLE_SECTIONS) name info
              groupitems relroot Hname)
    as (c & columns & match_kind & sortkey & Hc & _ & Hsec & _ & Hbuild).
  { rewrite size_TABLE_SECTIONS. lia. }
  eexists c, columns, match_kind, sortkey, _, _.
  split_and!; [done | done | exact Hbuild | apply sorted_key_Permutation |].
  apply (sorted_is_in_order (λ a b, tuple_lt (sortkey a) (sortkey b))).
  intros a b. apply tuple_lt_asym.
Qed.

Lemma build_section_items_sorted_witness :
  TABLE_SECTIONS !! KKind STRUCT = Some (Alias "structs")
  ∧ ∃ c columns match_kind sortkey items lines,
      canonical (KKind STRUCT) = Some c
      ∧ TABLE_SECTIONS !! KStr c = Some (Triple columns match_kind sortkey)
      ∧ build_section (KKind STRUCT) Sample.analysis None
        = Done (items, lines)
      ∧ items ≡ₚ filter (λ v, match_kind (kind v) = true) Sample.analysis
      ∧ Sorted (λ a b, tuple_lt (sortkey b) (sortkey a) = false) items.
Proof.
  split; [reflexivity|].
  exact (build_section_items_sorted (KKind STRUCT) (Alias "structs")
           Sample.analysis None eq_refl).
Defined.

(** X2: sorting in [build_section] is stable.  Among the items returned,
    those that share a sort key are in the order the input has them. *)
Theorem build_section_stable `{Collaborators} (name : Key)
    (info : SectionInfo) (groupitems : list Analyzed)
    (relroot : option string) :
  TABLE_SECTIONS !! name = Some info →
  ∃ c columns match_kind sortkey items lines,
    canonical name = Some c
    ∧ TABLE_SECTIONS !! KStr c = Some (Triple columns match_kind sortkey)
    ∧ build_section name groupitems relroot = Done (items, lines)
    ∧ ∀ k : list string,
        filter (λ v, sortkey v = k) items
        = filter (λ v, sortkey v = k)
            (filter (λ v, match_kind (kind v) = true) groupitems).
Proof.
  intros Hname.
  destruct (build_section_within_known (size TABLE_SECTIONS) name info
              groupitems relroot Hname)
    as (c & columns & match_kind & sortkey & Hc & _ & Hsec & _ & Hbuild).
  { rewrite size_TABLE_SECTIONS. lia. }
  eexists c, columns, match_kind, sortkey, _, _.
  split_and!; [done | done | exact Hbuild |].
  intros k. apply (sorted_stable _ sortkey).
  intros a b ->. apply tuple_lt_irrefl.
Qed.

Lemma build_section_stable_witness :
  TABLE_SECTIONS !! KStr "statements"
  = Some (Triple ["file"; "parent"; "data"]
            (λ kind, bool_decide (kind = STATEMENT))
            (λ v, [filename v; parent_str v; name v]))
  ∧ ∃ c columns match_kind sortkey items lines,
      canonical (KStr "statements") = Some c
      ∧ TABLE_SECTIONS !! KStr c = Some (Triple columns match_kind sortkey)
      ∧ build_section (KStr "statements") (Sample.analyze []) None
        = Done (items, lines)
      ∧ ∀ k : list string,
          filter (λ v, sortkey v = k) items
          = filter (λ v, sortkey v = k)
              (filter (λ v, match_kind (kind v) = true) (Sample.analyze [])).
Proof.
  split; [reflexivity|].
  exact (build_section_stable (KStr "statements") _ (Sample.analyze []) None
           eq_refl).
Defined.

(** X3: a key of the table and the canonical section it stands for give
    the same items, and renderings that end the same way and differ in
    the name line only.  So "typedefs", "structs", "unions", "enums" and
    the four type kinds all list every type declaration, not the
    declarations of one kind.  Without a root both renderings
    complete. *)
Theorem build_section_alias `{Collaborators} (name : Key)
    (info : SectionInfo) (groupitems : list Analyzed)
    (relroot : option string) :
  TABLE_SECTIONS !! name = Some info →
  ∃ c items lines lines_c ending,
    canonical name = Some c
    ∧ build_section name groupitems relroot
      = Done (items, MkRun lines ending)
    ∧ build_section (KStr c) groupitems relroot
      = Done (items, MkRun lines_c ending)
    ∧ lines !! 1 = Some (shown_name name +:+ ":")
    ∧ lines_c !! 1 = Some (c +:+ ":")
    ∧ (∀ i, i ≠ 1 → lines !! i = lines_c !! i)
    ∧ (opt_bool relroot = false → ending = Done tt).
Proof.
  intros Hname.
  destruct (build_section_within_known (size TABLE_SECTIONS) name info
              groupitems relroot Hname)
    as (c & columns & match_kind & sortkey & Hc & _ & Hsec & Hnd & Hbuild).
  { rewrite size_TABLE_SECTIONS. lia. }
  destruct (build_section_entry c _ _ _ groupitems relroot Hsec)
    as [_ Hbuild_c].
  simpl in Hbuild. rewrite section_render_table in Hbuild.
  rewrite section_render_table in Hbuild_c.
  eexists c, _, _, _, _.
  split_and!; [done | exact Hbuild | exact Hbuild_c | done | done | |].
  - intros [|[|i]] Hi; done.
  - intros Hroot. rewrite _render_table_accepted; [done|].
    apply Forall_forall. intros item _. by apply refused_no_root.
Qed.

Lemma build_section_alias_witness :
  TABLE_SECTIONS !! KStr "typedefs" = Some (Alias "types")
  ∧ ∃ c items lines lines_c,
      canonical (KStr "typedefs") = Some c
      ∧ build_section (KStr "typedefs") Sample.analysis None
        = Done (items, MkRun lines (Done tt))
      ∧ build_section (KStr c) Sample.analysis None
        = Done (items, MkRun lines_c (Done tt))
      ∧ lines !! 1 = Some (shown_name (KStr "typedefs") +:+ ":")
      ∧ lines_c !! 1 = Some (c +:+ ":")
      ∧ ∀ i, i ≠ 1 → lines !! i = lines_c !! i.
Proof.
  split; [reflexivity|].
  destruct (build_section_alias (KStr "typedefs") (Alias "types")
              Sample.analysis None eq_refl)
    as (c & items & lines & lines_c & ending & Hc & Hbuild & Hbuild_c
        & Hname & Hname_c & Hsame & Hdone).
  rewrite (Hdone eq_refl) in Hbuild, Hbuild_c.
  by exists c, items, lines, lines_c.
Defined.

(** X4: the four canonical sections split every collection: each entity
    is an item of exactly one of "types", "functions", "variables" and
    "statements", so the four section totals add up to the number of
    entities, the grand total of the summary. *)
Theorem sections_partition `{Collaborators} (analysis : list Analyzed)
    (relroot : option string) :
  ∃ types functions variables statements lines1 lines2 lines3 lines4,
    build_section (KStr "types") analysis relroot = Done (types, lines1)
    ∧ build_section (KStr "functions") analysis relroot
      = Done (functions, lines2)
    ∧ build_section (KStr "variables") analysis relroot
      = Done (variables, lines3)
    ∧ build_section (KStr "statements") analysis relroot
      = Done (statements, lines4)
    ∧ types ++ functions ++ variables ++ statements ≡ₚ analysis
    ∧ (length types + length functions + length variables
       + length statements = length analysis)%nat.
Proof.
  eexists _, _, _, _, _, _, _, _.
  split;
    [exact (proj2 (build_section_entry _ _ _ _ analysis relroot
                     entry_types))|].
  split;
    [exact (proj2 (build_section_entry _ _ _ _ analysis relroot
                     entry_functions))|].
  split;
    [exact (proj2 (build_section_entry _ _ _ _ analysis relroot
                     entry_variables))|].
  split;
    [exact (proj2 (build_section_entry _ _ _ _ analysis relroot
                     entry_statements))|].
  assert (∀ a b c d : list Analyzed,
            a ++ b ++ c ++ d ≡ₚ analysis →
            (length a + length b + length c + length d
             = length analysis)%nat) as Hlen.
  { intros a b c d Hperm. rewrite <-(Permutation_length Hperm).
    rewrite !length_app. lia. }
  assert (∀ P Q : Prop, P → (P → Q) → P ∧ Q) as Hand by tauto.
  apply Hand; [|apply Hlen].
  rewrite !sorted_key_Permutation. apply kinds_partition.
Qed.

(* ===================================================================== *)
(** * More on [_render_table] *)

(** X5: [_render_table], for any columns.  It yields the tab-joined
    column names, a divider and one row per item.  A row has one cell per
    column, the entity's rendering of it; when a non-empty root is given,
    the cell of the first column called "file", and of no other column,
    is made relative to the root.  When [os.path.relpath] refuses none of
    these cells, the divider and "total: n" follow, n the number of items,
    and the generator completes.  At the first item whose cell it
    refuses, the generator ends with the exception, after the rows of
    the items before; an empty cell is always refused, with
    [ValueError]. *)
Theorem _render_table_lines `{Collaborators} (items : list Analyzed)
    (columns : list string) (relroot : option string) :
  let row item :=
    String.concat (String TAB "")
      (imap (λ j column,
               let cell := render_rowdata item columns column in
               if bool_decide (opt_bool relroot = true ∧ column = "file"
                               ∧ "file" ∉ take j columns)
               then relpath cell (default "" relroot) else cell) columns) in
  let raised item :=
    if opt_bool relroot && bool_decide ("file" ∈ columns)
    then relpath_error (render_rowdata item columns "file")
           (default "" relroot)
    else None in
  let head :=
    [String.concat (String TAB "") columns; "--------------------"] in
  ((∀ item, item ∈ items → raised item = None) →
   _render_table items columns relroot
   = MkRun (head ++ (row <$> items)
            ++ ["--------------------"; "total: " +:+ pretty (length items)])
           (Done tt))
  ∧ (∀ before item after e,
       items = (before ++ item :: after)%list →
       (∀ item', item' ∈ before → raised item' = None) →
       raised item = Some e →
       _render_table items columns relroot
       = MkRun (head ++ (row <$> before)) (Exc e))
  ∧ (∀ item,
       opt_bool relroot = true → "file" ∈ columns →
       render_rowdata item columns "file" = "" →
       raised item = Some (ValueError "no path specified")).
Proof.
  intros row raised head. split_and!.
  - intros Hok. apply _render_table_accepted. by apply Forall_forall.
  - intros before item after e -> Hok Hbad.
    apply _render_table_refused; [|done]. by apply Forall_forall.
  - intros item Hroot Hin Hcell. unfold raised.
    rewrite Hroot, bool_decide_eq_true_2, Hcell by done.
    apply relpath_empty.
Qed.

Lemma _render_table_lines_witness :
  _render_table [Sample.buf; Sample.count] ["file"; "name"; "file"]
    (Some "/src")
  = MkRun ["file" +:+ String TAB "name" +:+ String TAB "file";
           "--------------------";
           "geom.c" +:+ String TAB "buf" +:+ String TAB "geom.c";
           "geom.c" +:+ String TAB "count" +:+ String TAB "/src/geom.c";
           "--------------------"; "total: 2"]
          (Done tt)
  ∧ _render_table [Sample.buf; Sample.nofile; Sample.count] ["name"; "file"]
      (Some "/src")
    = MkRun ["name" +:+ String TAB "file"; "--------------------";
             "buf" +:+ String TAB "geom.c"]
            (Exc (ValueError "no path specified")).
Proof.
  split.
  - destruct (_render_table_lines [Sample.buf; Sample.count]
                ["file"; "name"; "file"] (Some "/src")) as (Hok & _).
    rewrite Hok; [reflexivity|].
    intros item Hitem. rewrite !elem_of_cons, elem_of_nil in Hitem.
    by destruct Hitem as [->|[->|[]]].
  - destruct (_render_table_lines [Sample.buf; Sample.nofile; Sample.count]
                ["name"; "file"] (Some "/src")) as (_ & Hbad & _).
    rewrite (Hbad [Sample.buf] Sample.nofile [Sample.count]
               (ValueError "no path specified")); [reflexivity|done| |done].
    intros item Hitem. apply list_elem_of_singleton in Hitem. by subst item.
Defined.

(* ===================================================================== *)
(** * More on the formats *)

Section MoreFormats.
Context `{Collaborators}.

Lemma section_entry_run (items : list Analyzed) (c : string)
    (columns : list string) (match_kind : KIND → bool)
    (sortkey : Analyzed → list string) :
  TABLE_SECTIONS !! KStr c = Some (Triple columns match_kind sortkey) →
  section items c
  = MkRun (section_lines c columns None
             (sorted_key sortkey
                (filter (λ v, match_kind (kind v) = true) items)))
          (Done tt).
Proof.
  intros Hsec. unfold section.
  destruct (build_section_entry c _ _ _ items None Hsec) as [Hnd ->].
  unfold call. rewrite bind_Done. cbn [trace outcome app].
  rewrite section_render_run; [done..|].
  apply Forall_forall. intros item _. by apply refused_no_root.
Qed.

Lemma fmt_raw_run (analysis : list Analyzed) :
  fmt_raw analysis
  = MkRun (analysis ≫= λ item, render item "raw") (Done tt).
Proof. unfold fmt_raw. by apply for_Done. Qed.

Lemma fmt_full_run (analysis : list Analyzed) :
  fmt_full analysis
  = MkRun ("" :: (sorted_key key analysis
                    ≫= λ item, (render item "full" ++ [""])%list)
              ++ ["total: " +:+ pretty (length analysis)])
          (Done tt).
Proof.
  unfold fmt_full.
  rewrite (for_Done _ _ (λ item, (render item "full" ++ [""])%list)) by done.
  rewrite bind_yield, bind_Done. cbn [trace outcome yield].
  unfold sorted_key. by rewrite sorted_length.
Qed.

(** A block of entities of one kind, put in front of entities of later
    kinds, keeps the kinds in order. *)
Lemma kind_block_sorted (k : KIND) (block rest : list Analyzed) :
  Forall (λ a, kind a = k) block →
  Forall (λ b, (KIND_index k ≤ KIND_index (kind b))%nat) rest →
  StronglySorted (λ a b, KIND_index (kind a) ≤ KIND_index (kind b))%nat rest →
  StronglySorted (λ a b, KIND_index (kind a) ≤ KIND_index (kind b))%nat
    (block ++ rest).
Proof.
  intros Hblock Hrest Hsorted.
  induction Hblock as [|a block Ha Hblock IH]; [done|].
  simpl. constructor; [done|].
  rewrite Ha. apply Forall_app. split; [|done].
  eapply Forall_impl; [exact Hblock|]. by intros b ->.
Qed.

(** Blocks of one kind each, put one after the other in the order of a
    list of kinds, are in the order of that list. *)
Lemma kind_blocks_sorted (ks : list KIND) (l : list Analyzed) :
  StronglySorted (λ k k', KIND_index k ≤ KIND_index k')%nat ks →
  StronglySorted (λ a b, KIND_index (kind a) ≤ KIND_index (kind b))%nat
    (ks ≫= λ k, filter (λ item, kind item = k) l).
Proof.
  induction 1 as [|k ks Hks IH Hk]; [constructor|].
  rewrite bind_cons. apply (kind_block_sorted k); [| |done].
  - apply Forall_filter_self.
  - apply Forall_forall.
    intros b (k' & [Hb _]%list_elem_of_filter & Hk')%list_elem_of_bind.
    rewrite Hb. rewrite Forall_forall in Hk. by apply Hk.
Qed.

(** The entities of one kind among blocks of distinct kinds are the block
    of that kind. *)
Lemma kind_blocks_filter (ks : list KIND) (k : KIND) (l : list Analyzed) :
  NoDup ks →
  filter (λ item, kind item = k)
    (ks ≫= λ k', filter (λ item, kind item = k') l)
  = if bool_decide (k ∈ ks) then filter (λ item, kind item = k) l else [].
Proof.
  assert (∀ k', k ≠ k' →
            filter (λ item, kind item = k)
              (filter (λ item : Analyzed, kind item = k') l) = [])
    as Hother.
  { intros k' Hne. induction l as [|x l IH]; [done|].
    rewrite (filter_cons _ x). case_decide as Hx; [|done].
    rewrite filter_cons, IH. case_decide; [congruence|done]. }
  induction 1 as [|k' ks Hk' Hnd IH]; [done|].
  rewrite bind_cons, filter_app, IH.
  destruct (decide (k = k')) as [<-|Hne].
  - rewrite (bool_decide_eq_true_2 (k ∈ k :: ks)) by left.
    rewrite (bool_decide_eq_false_2 (k ∈ ks)) by done.
    rewrite app_nil_r. apply filter_all, Forall_filter_self.
  - rewrite Hother by done. simpl.
    apply (f_equal (λ b : bool, if b then _ else _)).
    apply bool_decide_ext. rewrite elem_of_cons.
    split; [by right | intros [?|?]; [congruence|done]].
Qed.
End MoreFormats.

(** X6: the summary format, line by line.  It is the section "types",
    then "functions", "variables" and "statements", each rendered as
    [build_section] renders it without a root (so no file cell is made
    relative), followed by a blank line and the grand total; it always
    completes. *)
Theorem fmt_summary_lines `{Collaborators} (analysis : list Analyzed) :
  let items_of (match_kind : KIND → bool) sortkey :=
    sorted_key sortkey (filter (λ v, match_kind (kind v) = true) analysis) in
  let lines_of (name : string) (columns : list string)
      (items : list Analyzed) :=
    ([""; name +:+ ":"; "";
      String.concat (String TAB "") columns; "--------------------"]
     ++ ((λ item,
            String.concat (String TAB "")
              (render_rowdata item columns <$> columns)) <$> items)
     ++ ["--------------------"; "total: " +:+ pretty (length items)])%list in
  fmt_summary analysis
  = MkRun (lines_of "types" ["kind"; "name"; "data"; "file"]
             (items_of is_type_decl
                (λ v, [KIND_value (kind v); filename v; name v]))
           ++ lines_of "functions" ["name"; "data"; "file"]
                (items_of (λ kind, bool_decide (kind = FUNCTION))
                   (λ v, [filename v; name v]))
           ++ lines_of "variables" ["name"; "parent"; "data"; "file"]
                (items_of (λ kind, bool_decide (kind = VARIABLE))
                   (λ v, [filename v; parent_str v; name v]))
           ++ lines_of "statements" ["file"; "parent"; "data"]
                (items_of (λ kind, bool_decide (kind = STATEMENT))
                   (λ v, [filename v; parent_str v; name v]))
           ++ [""; "grand total: " +:+ pretty (length analysis)])
          (Done tt).
Proof.
  intros items_of lines_of. unfold fmt_summary.
  rewrite (section_entry_run analysis _ _ _ _ entry_types).
  rewrite (section_entry_run analysis _ _ _ _ entry_functions).
  rewrite (section_entry_run analysis _ _ _ _ entry_variables).
  rewrite (section_entry_run analysis _ _ _ _ entry_statements).
  rewrite !bind_Done, !bind_yield. reflexivity.
Qed.

(** X7: the brief format groups by kind.  The entities it renders come
    kind by kind in the order typedef, struct, union, enum, function,
    variable; the entities of one kind are in the order sorting gave
    them, and no statement is among them. *)
Theorem fmt_brief_grouped `{Collaborators} (analysis : list Analyzed) :
  ∃ rendered,
    fmt_brief analysis
    = MkRun ((rendered ≫= λ item, render item "brief")
             ++ ["  total: " +:+ pretty (length analysis)])
            (Done tt)
    ∧ StronglySorted
        (λ a b, KIND_index (kind a) ≤ KIND_index (kind b))%nat rendered
    ∧ ∀ k, filter (λ item, kind item = k) rendered
           = if bool_decide (k = STATEMENT) then []
             else filter (λ item, kind item = k) (sorted item_lt analysis).
Proof.
  exists (brief_items analysis). split; [apply fmt_brief_run|].
  unfold brief_items. split.
  - apply kind_blocks_sorted. repeat constructor; simpl; lia.
  - intros k. rewrite kind_blocks_filter by compute_done.
    destruct k; by vm_compute.
Qed.

(** X8: the full format, line by line.  After a blank line come the
    entities in the order of their [key], each rendered in full and
    followed by a blank line, and at the end "total: N" with N the number
    of entities; every entity is rendered once, and the format always
    completes. *)
Theorem fmt_full_lines `{Collaborators} (analysis : list Analyzed) :
  ∃ items,
    fmt_full analysis
    = MkRun ("" :: (items ≫= λ item, (render item "full" ++ [""])%list)
                ++ ["total: " +:+ pretty (length analysis)])
            (Done tt)
    ∧ items ≡ₚ analysis
    ∧ Sorted (λ a b, tuple_lt (key b) (key a) = false) items.
Proof.
  exists (sorted_key key analysis).
  split; [apply fmt_full_run|]. split; [apply sorted_key_Permutation|].
  apply (sorted_is_in_order (λ a b, tuple_lt (key a) (key b))).
  intros a b. apply tuple_lt_asym.
Qed.

(* ===================================================================== *)
(** * More on the failure handlers *)

Lemma len_append (a b : string) : len (a +:+ b) = (len a + len b)%nat.
Proof.
  induction a as [|x a IH]; [done|].
  change (String x a +:+ b) with (String x (a +:+ b)).
  cbn [len]. rewrite IH. lia.
Qed.

Lemma len_spaces (n : nat) : len (spaces n) = n.
Proof.
  induction n as [|n IH]; [done|].
  change (spaces (S n)) with (String " " (spaces n)).
  cbn [len]. by rewrite IH.
Qed.

(** A padded field is as wide as asked, or as wide as its text when that
    is wider: nothing is cut off. *)
Lemma len_ljust (width : nat) (s : string) :
  len (ljust width s) = (width `max` len s)%nat.
Proof. unfold ljust. rewrite len_append, len_spaces. lia. Qed.

(** X9: the summary handler prints one line of four fields separated by
    tabs: the file name, the function name (or "-" when there is none),
    the entity's name, and the whole failure text.  Each of the first
    three is followed by the spaces that bring it to 35, 35 and 40 code
    points, and is never cut.  So when each of the three fits its width,
    the failure text starts after 113 code points on every line. *)
Theorem handle_failure_summary_aligned `{Collaborators} (failure : string)
    (data : Analyzed) (verbosity : nat) :
  let func := if str_bool (funcname_of data) then funcname_of data else "-" in
  ∃ handlers file_field func_field name_field,
    _get_check_handlers (Some "summary") verbosity = Done handlers
    ∧ handle_failure handlers failure data
      = MkRun [PrintLine (file_field +:+ String TAB ""
                          +:+ func_field +:+ String TAB ""
                          +:+ name_field +:+ String TAB ""
                          +:+ failure)]
              (Done tt)
    ∧ file_field = filename data +:+ spaces (35 - len (filename data))
    ∧ func_field = func +:+ spaces (35 - len func)
    ∧ name_field = name data +:+ spaces (40 - len (name data))
    ∧ len file_field = (35 `max` len (filename data))%nat
    ∧ len func_field = (35 `max` len func)%nat
    ∧ len name_field = (40 `max` len (name data))%nat
    ∧ ((len (filename data) ≤ 35)%nat →
       (len (funcname_of data) ≤ 35)%nat →
       (len (name data) ≤ 40)%nat →
       len (file_field +:+ String TAB ""
            +:+ func_field +:+ String TAB ""
            +:+ name_field +:+ String TAB "") = 113%nat).
Proof.
  intros func.
  exists (MkHandlers handle_failure_summary (mret tt) None),
    (ljust 35 (filename data)), (ljust 35 func), (ljust 40 (name data)).
  split_and!; [reflexivity.. | apply len_ljust | apply len_ljust
              | apply len_ljust |].
  intros Hfile Hfunc Hname.
  rewrite !len_append, !len_ljust.
  assert (len func ≤ 35)%nat.
  { unfold func. destruct (str_bool (funcname_of data)); simpl; lia. }
  change (len (String TAB "")) with 1%nat. lia.
Qed.

Lemma handle_failure_summary_aligned_witness :
  (len (filename Sample.cafe) ≤ 35)%nat
  ∧ (len (funcname_of Sample.cafe) ≤ 35)%nat
  ∧ (len (name Sample.cafe) ≤ 40)%nat
  ∧ len (name Sample.cafe) = 4%nat
  ∧ handle_failure_summary "no prototype" Sample.cafe
    = MkRun [PrintLine ("geom.c" +:+ spaces 29 +:+ String TAB ""
                        +:+ "-" +:+ spaces 34 +:+ String TAB ""
                        +:+ name Sample.cafe +:+ spaces 36 +:+ String TAB ""
                        +:+ "no prototype")]
            (Done tt)
  ∧ len ("geom.c" +:+ spaces 29 +:+ String TAB ""
         +:+ "-" +:+ spaces 34 +:+ String TAB ""
         +:+ name Sample.cafe +:+ spaces 36 +:+ String TAB "") = 113%nat.
Proof.
  assert (len (filename Sample.cafe) ≤ 35)%nat as Hfile
    by (vm_compute; lia).
  assert (len (funcname_of Sample.cafe) ≤ 35)%nat as Hfunc
    by (vm_compute; lia).
  assert (len (name Sample.cafe) ≤ 40)%nat as Hname
    by (vm_compute; lia).
  split_and!; [done | done | done | reflexivity | reflexivity |].
  destruct (handle_failure_summary_aligned "no prototype" Sample.cafe 3)
    as (handlers & file_field & func_field & name_field & _ & _
        & -> & -> & -> & _ & _ & _ & Hlen).
  exact (Hlen Hfile Hfunc Hname).
Defined.

(** X10: what a failure handler does, by format.  Without a format the
    handler only logs, never prints: two info lines at verbosity 3 and
    above, one warning below; a divider is set.  With "raw", "brief" or
    "summary" it prints one line and logs nothing, and no divider is set;
    with "full" it prints six lines and a divider is set. *)
Theorem handlers_by_format `{Collaborators} (fmt : option string)
    (verbosity : nat) (handlers : Handlers) (failure : string)
    (data : Analyzed) :
  _get_check_handlers fmt verbosity = Done handlers →
  let events := trace (handle_failure handlers failure data) in
  (opt_bool fmt = false →
   div handlers = Some ""
   ∧ ((3 ≤ verbosity)%nat → ∃ m1 m2, events = [LogInfo m1; LogInfo m2])
   ∧ ((verbosity < 3)%nat → ∃ m, events = [LogWarn m]))
  ∧ (opt_bool fmt = true →
     ∃ lines,
       events = PrintLine <$> lines
       ∧ length lines = (if bool_decide (fmt = Some "full") then 6 else 1)
       ∧ div handlers
         = (if bool_decide (fmt = Some "full") then Some "" else None)).
Proof.
  intros Hget events. subst events. unfold _get_check_handlers in Hget.
  destruct (opt_bool fmt) eqn:Hfmt; simpl in Hget.
  - split; [done|]. intros _.
    repeat case_bool_decide; simplify_eq/=;
      first [by eexists [_] | by eexists [_; _; _; _; _; _]].
  - injection Hget as <-. split; [|done]. intros _.
    split; [done|]. simpl. unfold handle_failure_plain.
    split; intros Hv.
    + rewrite bool_decide_eq_true_2 by done. by eexists _, _.
    + rewrite bool_decide_eq_false_2 by lia. by eexists.
Qed.

Lemma handlers_by_format_witness :
  _get_check_handlers (Some "full") 3
  = Done (MkHandlers handle_failure_full (mret tt) (Some ""))
  ∧ ∃ lines,
      trace (handle_failure_full "unsupported type" Sample.buf)
      = PrintLine <$> lines
      ∧ length lines = 6%nat.
Proof.
  split; [reflexivity|].
  destruct (proj2 (handlers_by_format (Some "full") 3 _ "unsupported type"
                     Sample.buf eq_refl) eq_refl)
    as (lines & Hlines & Hlen & _).
  exists lines. split; [exact Hlines | exact Hlen].
Defined.

(* ===================================================================== *)
(** * More on [cmd_check] *)

Section MoreChecks.
Context `{Collaborators}.

(** The loop over real failures followed by more results: the failures
    are handled one by one, with the divider in front of each but the
    very first, and the loop goes on with the rest. *)
Lemma check_loop_app (handlers : Handlers)
    (failures : list (Analyzed * string))
    (rest : list (option Analyzed * string)) (numfailed : nat) :
  (∀ failure data,
     handle_failure handlers failure data
     = MkRun (trace (handle_failure handlers failure data)) (Done tt)) →
  let blocks :=
    (λ '(data, failure), trace (handle_failure handlers failure data))
      <$> failures in
  let events :=
    if bool_decide (0 < numfailed)%nat
    then blocks ≫= (λ block, (divider handlers ++ block)%list)
    else join_blocks (divider handlers) blocks in
  let after := check_loop rest handlers (numfailed + length failures) in
  check_loop (((λ '(data, failure), (Some data, failure)) <$> failures)
              ++ rest) handlers numfailed
  = MkRun (events ++ trace after) (outcome after).
Proof.
  intros Hdone. revert numfailed.
  induction failures as [|[data failure] failures IH]; intros numfailed.
  - simpl. rewrite Nat.add_0_r.
    case_bool_decide; by destruct (check_loop rest handlers numfailed).
  - specialize (IH (S numfailed)).
    rewrite bool_decide_eq_true_2 in IH by lia.
    cbn zeta in IH |- *. rewrite fmap_cons. cbn [app check_loop].
    rewrite IH, Hdone. unfold divider.
    replace (S numfailed + length failures)%nat
      with (numfailed + length ((data, failure) :: failures))%nat
      by (simpl; lia).
    destruct (div handlers) as [div_|]; repeat case_bool_decide;
      rewrite ?bind_yield, ?bind_ret, !bind_Done; cbn [trace outcome];
      rewrite ?fmap_cons, ?bind_cons; simpl; by rewrite <-?app_assoc.
Qed.
End MoreChecks.

(** X11: the loop of [cmd_check] stops at the first result whose data is
    [None], however many failures came before it.  The failures before it
    are handled and counted exactly as without it, the notice "stopping
    after one failure" is printed once (also when more than one failure
    was handled), and nothing after it is read. *)
Theorem check_loop_stops_at_None `{Collaborators} (fmt : option string)
    (verbosity : nat) (handlers : Handlers)
    (failures : list (Analyzed * string)) (failure : string)
    (rest : list (option Analyzed * string)) (numfailed : nat) :
  _get_check_handlers fmt verbosity = Done handlers →
  let real := (λ '(data, failure), (Some data, failure))
              <$> failures in
  ∃ events,
    check_loop real handlers numfailed
    = MkRun events (Done (numfailed + length failures))
    ∧ check_loop (real ++ (None, failure) :: rest) handlers numfailed
      = MkRun (events ++ [PrinterInfo "stopping after one failure"])
              (Done (numfailed + length failures)).
Proof.
  intros Hget real.
  destruct (handlers_Done _ _ _ Hget) as [Hdone _].
  eexists. split.
  - rewrite <-(app_nil_r real). subst real.
    rewrite (check_loop_app handlers failures [] numfailed Hdone).
    cbn [check_loop trace outcome mret Run_ret]. by rewrite app_nil_r.
  - subst real.
    by rewrite (check_loop_app handlers failures _ numfailed Hdone).
Qed.

Lemma check_loop_stops_at_None_witness :
  _get_check_handlers (Some "brief") 3
  = Done (MkHandlers handle_failure_brief (mret tt) None)
  ∧ check_loop [(Some Sample.buf, "first"); (Some Sample.stmt, "second");
                (None, ""); (Some Sample.add, "third")]
      (MkHandlers handle_failure_brief (mret tt) None) 0
    = MkRun [PrintLine "geom.c:(add).buf - first";
             PrintLine "/src/geom.c:(add). - second";
             PrinterInfo "stopping after one failure"]
            (Done 2).
Proof.
  split; [reflexivity|].
  destruct (check_loop_stops_at_None (Some "brief") 3 _
              [(Sample.buf, "first"); (Sample.stmt, "second")] ""
              [(Some Sample.add, "third")] 0 eq_refl)
    as (events & Hreal & Hstop).
  vm_compute in Hreal. injection Hreal as <-. exact Hstop.
Defined.

(** X12: [cmd_check] without [failfast].  It logs "analyzing...", calls
    the analyzer once on the filtered file names, logs "checking...",
    handles every failure of every check, in the order of the checks and
    within a check in the order the check gives, puts the divider between
    two failures when the format sets one, prints the closing line, logs
    the number of failures, and ends with that number as exit status, or
    normally when there is no failure. *)
Theorem cmd_check_all_failures `{Collaborators} (filenames : list string)
    (checks : ChecksArg) (fmt relroot : option string)
    (iter_filenames : option (list string → list string)) (verbosity : nat)
    (_analyze : list string → list Analyzed) (_CHECKS : Registry)
    (cs : list Check) (handlers : Handlers) :
  resolve_checks checks _CHECKS = Done cs →
  _get_check_handlers fmt verbosity = Done handlers →
  let names := filter_filenames filenames iter_filenames in
  let analyzed :=
    if opt_bool relroot
    then fix_filenames (default "" relroot) (_analyze names)
    else _analyze names in
  let failures := cs ≫= (λ check, check analyzed) in
  let blocks :=
    (λ '(data, failure), trace (handle_failure handlers failure data))
      <$> failures in
  cmd_check filenames checks fmt relroot false iter_filenames verbosity
    _analyze _CHECKS
  = MkRun ([LogInfo "analyzing..."; CallAnalyze names; LogInfo "checking..."]
           ++ join_blocks (divider handlers) blocks
           ++ [PrinterInfo "-------------------------";
               LogInfo ("total failures: " +:+ pretty (length failures));
               LogInfo "done checking"])
          (if bool_decide (0 < length failures)%nat
           then Exc (SystemExit (length failures)) else Done tt).
Proof.
  intros Hchecks Hget names analyzed failures blocks.
  destruct (handlers_Done _ _ _ Hget) as [Hdone _].
  apply (cmd_check_run filenames checks fmt relroot false iter_filenames
           verbosity _analyze _CHECKS cs handlers _ _ Hchecks Hget).
  fold names analyzed. unfold check_all. fold failures.
  rewrite <-(app_nil_r (_ <$> failures)).
  rewrite (check_loop_app handlers failures [] 0 Hdone).
  cbn [check_loop trace outcome mret Run_ret].
  rewrite bool_decide_eq_false_2 by lia. by rewrite app_nil_r.
Qed.

Lemma cmd_check_all_failures_witness :
  resolve_checks ChecksNone Sample.CHECKS
  = Done [Sample.check_unknown; Sample.check_statements]
  ∧ _get_check_handlers None 2
    = Done (MkHandlers (handle_failure_plain 2) (mret tt) (Some ""))
  ∧ cmd_check ["a.c"] ChecksNone None None false None 2
      Sample.analyze Sample.CHECKS
    = MkRun [LogInfo "analyzing..."; CallAnalyze ["a.c"];
             LogInfo "checking...";
             LogWarn ("failure: unsupported type" +:+ String TAB
                      "details... (data: <buf>)");
             PrinterInfo "";
             LogWarn "failure: statement at top level (data: <>)";
             PrinterInfo "";
             LogWarn "failure: statement at top level (data: <>)";
             PrinterInfo "-------------------------";
             LogInfo "total failures: 3"; LogInfo "done checking"]
            (Exc (SystemExit 3)).
Proof.
  split; [reflexivity|]. split; [reflexivity|].
  exact (cmd_check_all_failures ["a.c"] ChecksNone None None None 2
           Sample.analyze Sample.CHECKS _ _ eq_refl eq_refl).
Defined.

(** X13: a clean run.  When no check reports a failure, [cmd_check]
    returns normally, with or without [failfast]: it has logged
    "analyzing...", called the analyzer once, logged "checking...",
    printed the closing line and logged "total failures: 0" and "done
    checking"; no handler has run and no notice is printed. *)
Theorem cmd_check_clean `{Collaborators} (filenames : list string)
    (checks : ChecksArg) (fmt relroot : option string) (failfast : bool)
    (iter_filenames : option (list string → list string)) (verbosity : nat)
    (_analyze : list string → list Analyzed) (_CHECKS : Registry)
    (cs : list Check) (handlers : Handlers) :
  resolve_checks checks _CHECKS = Done cs →
  _get_check_handlers fmt verbosity = Done handlers →
  let names := filter_filenames filenames iter_filenames in
  let analyzed :=
    if opt_bool relroot
    then fix_filenames (default "" relroot) (_analyze names)
    else _analyze names in
  (∀ check, check ∈ cs → check analyzed = []) →
  cmd_check filenames checks fmt relroot failfast iter_filenames verbosity
    _analyze _CHECKS
  = MkRun [LogInfo "analyzing..."; CallAnalyze names; LogInfo "checking...";
           PrinterInfo "-------------------------";
           LogInfo "total failures: 0"; LogInfo "done checking"]
          (Done tt).
Proof.
  intros Hchecks Hget names analyzed Hclean.
  assert (cs ≫= (λ check, check analyzed) = []) as Hnone.
  { clear Hchecks. induction cs as [|check cs' IH]; [done|].
    rewrite bind_cons, (Hclean check) by left. simpl.
    apply IH. intros check' Hin. apply Hclean. by right. }
  rewrite (cmd_check_run filenames checks fmt relroot failfast
             iter_filenames verbosity _analyze _CHECKS cs handlers [] 0
             Hchecks Hget); [done|].
  fold names analyzed. unfold check_all. rewrite Hnone.
  by destruct failfast.
Qed.

Lemma cmd_check_clean_witness :
  resolve_checks (ChecksStr "unknown") Sample.CHECKS
  = Done [Sample.check_unknown]
  ∧ _get_check_handlers (Some "full") 3
    = Done (MkHandlers handle_failure_full (mret tt) (Some ""))
  ∧ (∀ check, check ∈ [Sample.check_unknown] → check [Sample.add] = [])
  ∧ cmd_check ["a.c"] (ChecksStr "unknown") (Some "full") None true None 3
      (λ _, [Sample.add]) Sample.CHECKS
    = MkRun [LogInfo "analyzing..."; CallAnalyze ["a.c"];
             LogInfo "checking..."; PrinterInfo "-------------------------";
             LogInfo "total failures: 0"; LogInfo "done checking"]
            (Done tt).
Proof.
  assert (∀ check, check ∈ [Sample.check_unknown] → check [Sample.add] = [])
    as Hclean.
  { intros check Hin. apply list_elem_of_singleton in Hin. by subst. }
  split; [reflexivity|]. split; [reflexivity|]. split; [exact Hclean|].
  exact (cmd_check_clean ["a.c"] (ChecksStr "unknown") (Some "full") None
           true None 3 (λ _, [Sample.add]) Sample.CHECKS _ _
           eq_refl eq_refl Hclean).
Defined.

Section MoreResolve.
Context `{Collaborators}.

(** In a dictionary a name has one entry, and the lookup finds it. *)
Lemma registry_get_elem (_CHECKS : Registry) (c : string) (check : Check) :
  NoDup _CHECKS.*1 → (c, check) ∈ _CHECKS →
  registry_get _CHECKS c = Done check.
Proof.
  induction _CHECKS as [|[c' check'] rest IH]; simpl.
  - by intros _ ?%elem_of_nil.
  - rewrite NoDup_cons. intros [Hnotin Hnodup] Hin.
    apply elem_of_cons in Hin as [Heq|Hin].
    + injection Heq as <- <-. by rewrite bool_decide_eq_true_2.
    + rewrite bool_decide_eq_false_2; [by apply IH|].
      intros ->. apply Hnotin. apply list_elem_of_fmap. by exists (c, check).
Qed.

Lemma lookup_checks_registry (_CHECKS part : Registry) :
  NoDup _CHECKS.*1 → part ⊆ _CHECKS →
  lookup_checks _CHECKS (CheckName <$> part.*1) = Done part.*2.
Proof.
  intros Hnodup. induction part as [|[c check] part IH]; intros Hsub; [done|].
  assert (part ⊆ _CHECKS) as Hpart by (intros x Hx; apply Hsub; by right).
  specialize (IH Hpart). rewrite !fmap_cons. cbn [lookup_checks fst snd].
  rewrite (registry_get_elem _ c check); [|done|apply Hsub; by left].
  by rewrite IH.
Qed.

(** What the list comprehension gives: every element resolved in its
    place, or the [KeyError] of the first name the registry lacks. *)
Lemma lookup_checks_spec (_CHECKS : Registry) (checks : list CheckRef) :
  match lookup_checks _CHECKS checks with
  | Done cs =>
      Forall2 (λ ref check,
                 match ref with
                 | CheckName c => registry_get _CHECKS c = Done check
                 | CheckFn check' => check = check'
                 end) checks cs
  | Exc e =>
      ∃ before c after,
        checks = (before ++ CheckName c :: after)%list
        ∧ e = KeyError (KStr c)
        ∧ (c ∉ _CHECKS.*1)
        ∧ ∀ c', CheckName c' ∈ before → c' ∈ _CHECKS.*1
  | Unfinished => False
  end.
Proof.
  induction checks as [|ref checks IH]; simpl; [constructor|].
  destruct ref as [c|check].
  - destruct (decide (c ∈ _CHECKS.*1)) as [Hknown|Hunknown].
    + destruct (registry_get_known _ _ Hknown) as [check Hget].
      rewrite Hget. simpl.
      destruct (lookup_checks _CHECKS checks) as [cs|e|]; simpl; [| |done].
      * by constructor.
      * destruct IH as (before & c0 & after & -> & -> & Hc0 & Hbefore).
        exists (CheckName c :: before), c0, after.
        split_and!; [done..|].
        intros c' [Heq|Hin]%elem_of_cons; [congruence | by apply Hbefore].
    + rewrite registry_get_unknown by done. simpl.
      exists [], c, checks. split_and!; [done..|].
      by intros c' ?%elem_of_nil.
  - simpl.
    destruct (lookup_checks _CHECKS checks) as [cs|e|]; simpl; [| |done].
    + by constructor.
    + destruct IH as (before & c0 & after & -> & -> & Hc0 & Hbefore).
      exists (CheckFn check :: before), c0, after.
      split_and!; [done..|].
      intros c' [Heq|Hin]%elem_of_cons; [congruence | by apply Hbefore].
Qed.
End MoreResolve.

(** X14: the default checks.  When [checks] is left out, or is the empty
    string or an empty list, [cmd_check] runs every check of the
    registry, each once, in the order of the registry (a dictionary: its
    names are distinct). *)
Theorem resolve_checks_default `{Collaborators} (checks : ChecksArg)
    (_CHECKS : Registry) :
  NoDup _CHECKS.*1 →
  checks = ChecksNone ∨ checks = ChecksStr "" ∨ checks = ChecksList [] →
  resolve_checks checks _CHECKS = Done _CHECKS.*2.
Proof.
  intros Hnodup Hchecks. unfold resolve_checks.
  assert (checks_empty checks = true) as ->
    by by destruct Hchecks as [->|[->| ->]].
  by apply lookup_checks_registry.
Qed.

Lemma resolve_checks_default_witness :
  NoDup Sample.CHECKS.*1
  ∧ resolve_checks (ChecksStr "") Sample.CHECKS
    = Done [Sample.check_unknown; Sample.check_statements].
Proof.
  assert (NoDup Sample.CHECKS.*1) as Hnodup by compute_done.
  split; [exact Hnodup|].
  exact (resolve_checks_default (ChecksStr "") Sample.CHECKS Hnodup
           (or_intror (or_introl eq_refl))).
Defined.

(** X15: a non-empty list of checks.  Either every name in it is in the
    registry, and the result has the registered check in the place of
    each name and each callable in its own place; or [KeyError] is raised
    for the first name that the registry lacks. *)
Theorem resolve_checks_list `{Collaborators} (checks : list CheckRef)
    (_CHECKS : Registry) :
  checks ≠ [] →
  match resolve_checks (ChecksList checks) _CHECKS with
  | Done cs =>
      Forall2 (λ ref check,
                 match ref with
                 | CheckName c => registry_get _CHECKS c = Done check
                 | CheckFn check' => check = check'
                 end) checks cs
  | Exc e =>
      ∃ before c after,
        checks = (before ++ CheckName c :: after)%list
        ∧ e = KeyError (KStr c)
        ∧ (c ∉ _CHECKS.*1)
        ∧ ∀ c', CheckName c' ∈ before → c' ∈ _CHECKS.*1
  | Unfinished => False
  end.
Proof.
  intros Hne. unfold resolve_checks. simpl.
  rewrite bool_decide_eq_false_2 by done.
  apply lookup_checks_spec.
Qed.

Lemma resolve_checks_list_witness :
  [CheckName "statements"; CheckName "globals"; CheckName "other"]
  ≠ ([] : list CheckRef)
  ∧ ∃ before c after,
      [CheckName "statements"; CheckName "globals"; CheckName "other"]
      = (before ++ CheckName c :: after)%list
      ∧ KeyError (KStr "globals") = KeyError (KStr c)
      ∧ (c ∉ Sample.CHECKS.*1)
      ∧ ∀ c', CheckName c' ∈ before → c' ∈ Sample.CHECKS.*1.
Proof.
  split; [discriminate|].
  exact (resolve_checks_list
           [CheckName "statements"; CheckName "globals"; CheckName "other"]
           Sample.CHECKS ltac:(discriminate)).
Defined.

(** X16: with the module's registry, which is empty, [cmd_check] called
    without a choice of checks runs no check: whatever the analyzer
    returns, and with or without [failfast], it reports zero failures and
    returns normally, for every format the handlers accept. *)
Theorem cmd_check_no_checks `{Collaborators} (filenames : list string)
    (checks : ChecksArg) (fmt relroot : option string) (failfast : bool)
    (iter_filenames : option (list string → list string)) (verbosity : nat)
    (_analyze : list string → list Analyzed) (handlers : Handlers) :
  checks = ChecksNone ∨ checks = ChecksStr "" ∨ checks = ChecksList [] →
  _get_check_handlers fmt verbosity = Done handlers →
  cmd_check filenames checks fmt relroot failfast iter_filenames verbosity
    _analyze CHECKS
  = MkRun [LogInfo "analyzing...";
           CallAnalyze (filter_filenames filenames iter_filenames);
           LogInfo "checking..."; PrinterInfo "-------------------------";
           LogInfo "total failures: 0"; LogInfo "done checking"]
          (Done tt).
Proof.
  intros Hchecks Hget.
  assert (resolve_checks checks CHECKS = Done []) as Hnone
    by by destruct Hchecks as [->|[->| ->]].
  rewrite (cmd_check_run filenames checks fmt relroot failfast
             iter_filenames verbosity _analyze CHECKS [] handlers [] 0
             Hnone Hget); [done|].
  by destruct failfast.
Qed.

Lemma cmd_check_no_checks_witness :
  _get_check_handlers (Some "summary") 3
  = Done (MkHandlers handle_failure_summary (mret tt) None)
  ∧ cmd_check ["a.c"] ChecksNone (Some "summary") (Some "/src") true None 3
      Sample.analyze CHECKS
    = MkRun [LogInfo "analyzing..."; CallAnalyze ["a.c"];
             LogInfo "checking..."; PrinterInfo "-------------------------";
             LogInfo "total failures: 0"; LogInfo "done checking"]
            (Done tt).
Proof.
  split; [reflexivity|].
  exact (cmd_check_no_checks ["a.c"] ChecksNone (Some "summary")
           (Some "/src") true None 3 Sample.analyze _
           (or_introl eq_refl) eq_refl).
Defined.

(** X17: [_get_check_handlers] never raises [NotImplementedError]: every
    format of [FORMATS] has its failure handler, so the only error it
    raises is [ValueError] "unsupported fmt ...". *)
Theorem _get_check_handlers_total `{Collaborators} (fmt : option string)
    (verbosity : nat) :
  (∃ handlers, _get_check_handlers fmt verbosity = Done handlers)
  ∨ _get_check_handlers fmt verbosity
    = Exc (ValueError ("unsupported fmt " +:+ opt_repr fmt)).
Proof.
  unfold _get_check_handlers.
  destruct (negb (opt_bool fmt)); [left; by eexists|].
  case_bool_decide as Hraw; [left; by eexists|].
  case_bool_decide as Hbrief; [left; by eexists|].
  case_bool_decide as Hsummary; [left; by eexists|].
  case_bool_decide as Hfull; [left; by eexists|].
  case_bool_decide as Hin; [|by right].
  destruct fmt as [fmt|]; [|by destruct Hin].
  destruct Hin as [do_fmt Hin]. simpl in Hin.
  rewrite FORMATS_unknown in Hin; [done|].
  rewrite !not_elem_of_cons.
  split_and!; [congruence..|apply not_elem_of_nil].
Qed.

(** X18: [cmd_analyze] with a format of [FORMATS] always returns
    normally.  It logs "analyzing...", calls the analyzer once on the
    filtered file names, and then prints every line of the report of what
    the analyzer returned, in order.  During the call exactly the names
    the analyzer pulls from the iterable are echoed, in order, each as a
    "<name>" line at verbosity 3 and above, and when no verbosity is
    given, or as a mark at verbosity 2; below 2 nothing is echoed, and a
    name the analyzer does not ask for is never echoed. *)
Theorem cmd_analyze_prints `{Collaborators} (filenames : list string)
    (fmt : string) (iter_filenames : option (list string → list string))
    (verbosity : option nat) (_analyze : Analyzer)
    (do_fmt : list Analyzed → Gen) :
  FORMATS !! fmt = Some do_fmt →
  let names := filter_filenames filenames iter_filenames in
  let pulled := take (pulls _analyze names) names in
  let echo :=
    match verbosity with
    | Some 0 | Some 1 => []
    | Some 2 => imap (λ i _, PrintNoEnd (iter_marks i)) pulled
    | _ => (λ filename, PrintLine ("<" +:+ filename +:+ ">")) <$> pulled
    end in
  cmd_analyze filenames (Some fmt) iter_filenames verbosity _analyze FORMATS
  = MkRun ([LogInfo "analyzing..."; CallAnalyze names]
           ++ echo
           ++ (PrintLine <$> trace (do_fmt (returns _analyze names))))
          (Done tt)
  ∧ (length echo ≤ length names)%nat.
Proof.
  intros Hfmt names pulled echo.
  assert (∀ analysis, outcome (do_fmt analysis) = Done tt) as Hdone.
  { intros analysis. pose proof Hfmt as Hin.
    unfold FORMATS in Hin. apply elem_of_list_to_map_2 in Hin.
    rewrite !elem_of_cons, elem_of_nil in Hin.
    destruct Hin as [Heq|[Heq|[Heq|[Heq|[]]]]]; injection Heq as -> ->.
    - by rewrite fmt_raw_run.
    - by rewrite fmt_brief_run.
    - by destruct (fmt_summary_run analysis) as [body ->].
    - by rewrite fmt_full_run. }
  assert (filename_echo (default 3 verbosity) pulled = echo) as Hecho.
  { unfold filename_echo, echo.
    by destruct verbosity as [[|[|[|verbosity]]]|]. }
  split.
  - unfold cmd_analyze. cbn [mbind option_bind]. rewrite Hfmt.
    rewrite bind_ret, !bind_yield. fold names. fold pulled. rewrite Hecho.
    unfold yield_from, print_lines. rewrite bind_Done. cbn [trace outcome].
    by rewrite Hdone.
  - assert (length pulled ≤ length names)%nat as Hpulled
      by (unfold pulled; rewrite length_take; lia).
    unfold echo.
    destruct verbosity as [[|[|[|verbosity]]]|]; simpl;
      rewrite ?length_imap, ?length_fmap; lia.
Qed.

Lemma cmd_analyze_prints_witness :
  FORMATS !! "raw" = Some fmt_raw
  ∧ cmd_analyze ["a.c"; "b.c"] (Some "raw") None None Sample.hasty FORMATS
    = MkRun [LogInfo "analyzing..."; CallAnalyze ["a.c"; "b.c"];
             PrintLine "<a.c>";
             PrintLine "raw Point"; PrintLine "raw add"]
            (Done tt)
  ∧ cmd_analyze ["a.c"; "b.c"] (Some "raw") None (Some 2) Sample.analyzer
      FORMATS
    = MkRun [LogInfo "analyzing..."; CallAnalyze ["a.c"; "b.c"];
             PrintNoEnd "."; PrintNoEnd ".";
             PrintLine "raw buf"; PrintLine "raw "; PrintLine "raw add";
             PrintLine "raw "]
            (Done tt).
Proof.
  split; [reflexivity|]. split.
  - exact (proj1 (cmd_analyze_prints ["a.c"; "b.c"] "raw" None None
                    Sample.hasty fmt_raw eq_refl)).
  - exact (proj1 (cmd_analyze_prints ["a.c"; "b.c"] "raw" None (Some 2)
                    Sample.analyzer fmt_raw eq_refl)).
Defined.

(** X19: [main] never runs a command.  The entry it calls is the first
    member of the [COMMANDS] tuple, the description string, so for each of
    "check", "analyze" and "data" the call fails with [TypeError]; any
    other name raises [ValueError] "unsupported cmd ...". *)
Theorem main_never_runs `{Collaborators} {K R : Type}
    (run_check run_analyze run_data : K → R) (cmd : string)
    (cmd_kwargs : K) :
  main run_check run_analyze run_data cmd cmd_kwargs
  = (if bool_decide (cmd ∈ ["check"; "analyze"; "data"])
     then TypeError "'str' object is not callable"
     else Raised (ValueError ("unsupported cmd " +:+ str_repr cmd)))
  ∧ ∀ run, main run_check run_analyze run_data cmd cmd_kwargs ≠ Ran run.
Proof.
  assert (main run_check run_analyze run_data cmd cmd_kwargs
          = if bool_decide (cmd ∈ ["check"; "analyze"; "data"])
            then TypeError "'str' object is not callable"
            else Raised (ValueError ("unsupported cmd " +:+ str_repr cmd)))
    as Hmain.
  { case_bool_decide as Hcmd.
    - rewrite !elem_of_cons, elem_of_nil in Hcmd.
      by destruct Hcmd as [->|[->|[->|[]]]].
    - unfold main, COMMANDS.
      by rewrite (not_elem_of_list_to_map_1 _ cmd). }
  split; [done|]. intros run. rewrite Hmain. by case_bool_decide.
Qed.

(** X20: [cmd_data] "show" with the module's formats and the name of a
    known-types file.  The file is read once and the summary report of the
    entities it holds is printed, line by line, ending with the line
    "grand total: N" for the N entities of the file; the command returns
    normally.  The analyzer is not called: the file names, the analyzer
    and the [show] flag play no part. *)
Theorem cmd_data_show `{Collaborators} `{DataFiles}
    (filenames : list string) (filename : string)
    (_analyze : list string → list Analyzed)
    (extracolumns : option (list string)) (relroot : option string)
    (show : option bool) :
  let known := get_known filename extracolumns relroot in
  ∃ events,
    cmd_data (Some "show") filenames (KnownPath filename) _analyze FORMATS
      extracolumns relroot show
    = Ran (MkRun events (Done tt))
    ∧ events
      = ReadKnown filename :: (Core ∘ PrintLine <$> trace (fmt_summary known))
    ∧ last events
      = Some (Core (PrintLine ("grand total: " +:+ pretty (length known)))).
Proof.
  intros known.
  destruct (fmt_summary_run known) as [body Hrun].
  eexists. split_and!; [|reflexivity|].
  - unfold cmd_data.
    rewrite bool_decide_eq_true_2 by done.
    assert (FORMATS !! "summary" = Some fmt_summary) as -> by done.
    fold known. rewrite bind_yield. unfold lift_core, print_lines.
    cbn [trace outcome]. rewrite Hrun. cbn [trace outcome].
    by rewrite <-list_fmap_compose.
  - rewrite Hrun. cbn [trace]. rewrite fmap_app, app_comm_cons.
    change ((Core ∘ PrintLine) <$>
              [""; "grand total: " +:+ pretty (length known)])
      with ([(Core ∘ PrintLine) ""]
            ++ [Core (PrintLine ("grand total: "
                                 +:+ pretty (length known)))])%list.
    by rewrite app_assoc, last_snoc.
Qed.

Lemma Ran_inj {R} (a b : R) : Ran a = Ran b → a = b.
Proof. by intros [= ->]. Qed.

(** X21: what [cmd_data] does to the outside, for every sub-command,
    every [known] and every table of formats.  The analyzer is called
    only by "dump", on the file names as given.  A known-types file is
    written only by "dump" when [known] is given and [show] is not set,
    and then it is [known] that receives the text; otherwise "dump"
    prints the text.  A file is read only by "show" when [known] is a
    file name and the formats have "summary".  Any other sub-command
    raises before anything is done: [NotImplementedError] for "check",
    [ValueError] "unsupported data command ..." for the rest. *)
Theorem cmd_data_effects `{Collaborators} `{DataFiles}
    (datacmd : option string) (filenames : list string) (known : Known)
    (_analyze : list string → list Analyzed)
    (formats : gmap string (list Analyzed → Gen))
    (extracolumns : option (list string)) (relroot : option string)
    (show : option bool) (r : Run DataEvent unit) :
  cmd_data datacmd filenames known _analyze formats extracolumns relroot show
  = Ran r →
  let text := known_text (_analyze filenames) extracolumns relroot in
  (∀ names, Core (CallAnalyze names) ∈ trace r
            ↔ datacmd = Some "dump" ∧ names = filenames)
  ∧ (∀ outfile text', WriteKnown outfile text' ∈ trace r
                      ↔ datacmd = Some "dump" ∧ outfile = known
                        ∧ text' = text ∧ known ≠ KnownNone
                        ∧ default false show = false)
  ∧ (datacmd = Some "dump" →
     Core (PrintLine text) ∈ trace r
     ↔ known = KnownNone ∨ default false show = true)
  ∧ (∀ filename, ReadKnown filename ∈ trace r
                 ↔ datacmd = Some "show" ∧ known = KnownPath filename
                   ∧ is_Some (formats !! "summary"))
  ∧ (datacmd ≠ Some "show" → datacmd ≠ Some "dump" →
     r = raise (if bool_decide (datacmd = Some "check")
                then NotImplementedError "check"
                else ValueError ("unsupported data command "
                                 +:+ opt_repr datacmd))).
Proof.
  intros Hrun text. unfold cmd_data in Hrun.
  case_bool_decide as Hshow; [|case_bool_decide as Hdump].
  - subst datacmd.
    destruct (formats !! "summary") as [do_fmt|] eqn:Hfmt.
    + destruct known as [|filename|known]; [done|..];
        apply Ran_inj in Hrun; subst r.
      * rewrite bind_yield. unfold lift_core, print_lines.
        cbn [trace outcome]. rewrite <-list_fmap_compose.
        split_and!; [| |done| |done].
        -- intros names. rewrite elem_of_cons, list_elem_of_fmap.
           split; [intros [?|(? & ? & _)]|intros [? _]]; done.
        -- intros outfile text'. rewrite elem_of_cons, list_elem_of_fmap.
           split; [intros [?|(? & ? & _)]|intros [? _]]; done.
        -- intros filename'. rewrite elem_of_cons, list_elem_of_fmap.
           split.
           ++ intros [[= ->]|(? & ? & _)]; [|done].
              split_and!; [done..|by eexists].
           ++ intros (_ & [= ->] & _). by left.
      * unfold lift_core, print_lines.
        cbn [trace outcome]. rewrite <-list_fmap_compose.
        split_and!; [| |done| |done].
        -- intros names. rewrite list_elem_of_fmap.
           split; [intros (? & ? & _)|intros [? _]]; done.
        -- intros outfile text'. rewrite list_elem_of_fmap.
           split; [intros (? & ? & _)|intros [? _]]; done.
        -- intros filename'. rewrite list_elem_of_fmap.
           split; [intros (? & ? & _)|intros (_ & ? & _)]; done.
    + apply Ran_inj in Hrun; subst r. cbn [raise trace].
      split_and!; [| |done| |done].
      * intros names. rewrite elem_of_nil. split; [done|]. by intros [? _].
      * intros outfile text'. rewrite elem_of_nil.
        split; [done|]. by intros [? _].
      * intros filename'. rewrite elem_of_nil.
        split; [done|]. by intros (_ & _ & [? ?]).
  - subst datacmd. apply Ran_inj in Hrun; subst r.
    rewrite bind_yield. fold text. cbn [trace].
    assert (known_is_None known || default false show = true
            ↔ known = KnownNone ∨ default false show = true) as Hstdout.
    { destruct known, show as [[]|]; simpl; split; auto;
        intros [?|?]; done. }
    destruct (known_is_None known || default false show);
      cbn [yield trace].
    + assert (known = KnownNone ∨ default false show = true) as Hor
        by by apply Hstdout.
      split_and!; [| | | |done].
      * intros names. rewrite !elem_of_cons, elem_of_nil.
        split; [intros [[= ->]|[?|[]]]; done | intros [_ ->]; by left].
      * intros outfile text'. rewrite !elem_of_cons, elem_of_nil.
        split; [intros [?|[?|[]]]; done|]. intros (_ & _ & _ & Hk & Hs).
        destruct Hor; congruence.
      * intros _. split; [done|]. intros _. right. by left.
      * intros filename'. rewrite !elem_of_cons, elem_of_nil.
        split; [intros [?|[?|[]]]; done | intros (? & _); done].
    + assert (¬ (known = KnownNone ∨ default false show = true)) as Hnor
        by (intros Hor; by apply Hstdout in Hor).
      split_and!; [| | | |done].
      * intros names. rewrite !elem_of_cons, elem_of_nil.
        split; [intros [[= ->]|[?|[]]]; done | intros [_ ->]; by left].
      * intros outfile text'. rewrite !elem_of_cons, elem_of_nil.
        split.
        -- intros [?|[[= -> ->]|[]]]; [done|].
           split_and!; [done..| |].
           ++ intros ->. apply Hnor. by left.
           ++ destruct (default false show); [|done].
              destruct Hnor. by right.
        -- intros (_ & -> & -> & _). right. by left.
      * intros _. rewrite !elem_of_cons, elem_of_nil.
        split; [intros [?|[?|[]]]; done | intros Hor; by destruct Hnor].
      * intros filename'. rewrite !elem_of_cons, elem_of_nil.
        split; [intros [?|[?|[]]]; done | intros (? & _); done].
  - assert (r = raise (if bool_decide (datacmd = Some "check")
                       then NotImplementedError "check"
                       else ValueError ("unsupported data command "
                                        +:+ opt_repr datacmd))) as ->.
    { case_bool_decide; apply Ran_inj in Hrun; by subst r. }
    cbn [raise trace].
    split_and!; [| |done| |done].
    + intros names. rewrite elem_of_nil. split; [done|]. by intros [? _].
    + intros outfile text'. rewrite elem_of_nil.
      split; [done|]. by intros [? _].
    + intros filename'. rewrite elem_of_nil.
      split; [done|]. by intros (? & _ & _).
Qed.

Lemma cmd_data_effects_witness :
  cmd_data (Some "dump") ["a.c"] (KnownPath "known.tsv")
    (λ _, [Sample.Point; Sample.add]) FORMATS None None None
  = Ran (MkRun [Core (CallAnalyze ["a.c"]);
                WriteKnown (KnownPath "known.tsv") "Point;add"] (Done tt))
  ∧ ∀ names,
      Core (CallAnalyze names)
      ∈ [Core (CallAnalyze ["a.c"]);
         WriteKnown (KnownPath "known.tsv") "Point;add"]
      ↔ Some "dump" = Some "dump" ∧ names = ["a.c"].
Proof.
  split; [reflexivity|].
  exact (proj1 (cmd_data_effects (Some "dump") ["a.c"]
                  (KnownPath "known.tsv") (λ _, [Sample.Point; Sample.add])
                  FORMATS None None None _ eq_refl)).
Defined.
